(** * update_guide_ppt.py: batch conversion of PowerPoint guides to PDF

    A shallow embedding of [src/update_guide_ppt.py] and the properties of
    its staleness check, its error containment and its manifest.

    The script talks to three things outside itself: the file system
    (through [os] and [os.path]), the PowerPoint COM server (through
    [comtypes]) and standard output.  They are modelled by an explicit
    world that is threaded through the program:
    - file-system entries are a finite map from absolute path to
      modification time;
    - the COM server is an oracle that decides, for every application
      instance the script creates, which of the five calls raise;
    - standard output, the COM calls and the text files written are
      logged in the order in which they happen.

    The script is embedded twice.  In the first embedding the operations
    the script runs outside any handler ([print], [os.makedirs],
    [os.listdir], the writing of the manifest) always succeed; the second,
    [WithFaults], is the same script over operations that can fail, and
    agrees with the first when none does.

    What the model leaves out: an exception raised by a COM call is an
    instance of [Exception] (a [KeyboardInterrupt] during a conversion is
    not modelled); modification times are integers, of which only the order
    matters; a [SaveAs] that raises leaves no file behind; creating an
    entry does not re-stamp the directory that holds it. *)

From Stdlib Require Import ZArith Lia Ascii String List Bool.
From stdpp Require Import base gmap strings list pretty.
Import ListNotations.

Local Open Scope string_scope.

(** ** Python strings

    [str] is modelled by [string]; a non-ASCII character is the sequence of
    its UTF-8 bytes, which none of the operations below changes. *)

Module PyStr.

Definition quote : ascii := ascii_of_nat 34.
Definition backslash : ascii := ascii_of_nat 92.

(** [str.lower] on the ASCII range. *)
Definition lower_ascii (c : ascii) : ascii :=
  let n := nat_of_ascii c in
  if (65 <=? n)%nat && (n <=? 90)%nat then ascii_of_nat (n + 32) else c.

Fixpoint lower (s : string) : string :=
  match s with
  | EmptyString => EmptyString
  | String c s' => String (lower_ascii c) (lower s')
  end.

(** [s.endswith(suffix)]. *)
Definition endswith (s suffix : string) : bool :=
  let n := String.length s in
  let k := String.length suffix in
  (k <=? n)%nat && String.eqb (substring (n - k) k s) suffix.

(** [needle in hay]. *)
Fixpoint contains (needle hay : string) : bool :=
  String.prefix needle hay ||
  match hay with
  | EmptyString => false
  | String _ hay' => contains needle hay'
  end.

(** [s.rfind(c)] for a one-character [c]: the highest index holding [c],
    or [-1]. *)
Fixpoint rfind_from (c : ascii) (s : string) (i last : Z) : Z :=
  match s with
  | EmptyString => last
  | String a s' =>
      rfind_from c s' (i + 1)%Z (if Ascii.eqb a c then i else last)
  end.

Definition rfind (c : ascii) (s : string) : Z := rfind_from c s 0%Z (-1)%Z.

(** The slices [s[:k]], [s[k:]] and [s[k:k+1]] for [0 <= k]. *)
Definition slice_to (k : Z) (s : string) : string :=
  substring 0 (Z.to_nat k) s.

Definition slice_from (k : Z) (s : string) : string :=
  substring (Z.to_nat k) (String.length s - Z.to_nat k) s.

Definition slice_one (k : Z) (s : string) : string :=
  substring (Z.to_nat k) 1 s.

(** ["-" * n]. *)
Fixpoint repeat_str (s : string) (n : nat) : string :=
  match n with
  | O => EmptyString
  | S n' => s ++ repeat_str s n'
  end.

(** Membership of a character in a string. *)
Fixpoint has_char (c : ascii) (s : string) : bool :=
  match s with
  | EmptyString => false
  | String a s' => Ascii.eqb a c || has_char c s'
  end.

End PyStr.

(** ** [os.path] on Windows ([ntpath])

    The script imports [comtypes], so it only runs on Windows and [os.path]
    is [ntpath].  The script builds every path from [os.getcwd()] and a
    directory entry, so the second argument of [join] is always relative
    and has no drive, and [abspath] finds its argument absolute and already
    normalised. *)

Module OsPath.
Import PyStr.

Definition sep : ascii := backslash.
Definition altsep : ascii := "/"%char.
Definition extsep : ascii := "."%char.
Definition colon : ascii := ":"%char.

Definition is_sep (c : ascii) : bool := Ascii.eqb c sep || Ascii.eqb c altsep.

(** The loop of [genericpath._splitext] that skips leading dots:
    [true] when some character in [[filenameIndex, dotIndex)] is not a
    dot, which is when the function returns the split. *)
Fixpoint skip_leading_dots (fuel : nat) (p : string)
    (filenameIndex dotIndex : Z) : bool :=
  match fuel with
  | O => false
  | S fuel' =>
      if (filenameIndex <? dotIndex)%Z then
        if negb (String.eqb (slice_one filenameIndex p) (String extsep ""))
        then true
        else skip_leading_dots fuel' p (filenameIndex + 1)%Z dotIndex
      else false
  end.

(** [os.path.splitext]: [genericpath._splitext(p, '\\', '/', '.')]. *)
Definition splitext (p : string) : string * string :=
  let sepIndex := Z.max (rfind sep p) (rfind altsep p) in
  let dotIndex := rfind extsep p in
  if (dotIndex >? sepIndex)%Z
     && skip_leading_dots (Z.to_nat (dotIndex - (sepIndex + 1))) p
          (sepIndex + 1)%Z dotIndex
  then (slice_to dotIndex p, slice_from dotIndex p)
  else (p, EmptyString).

(** [ntpath.splitdrive] for a drive letter; UNC shares are left out. *)
Definition splitdrive (p : string) : string * string :=
  match p with
  | String c (String d rest) =>
      if Ascii.eqb d colon then (String c (String d ""), rest)
      else (EmptyString, p)
  | _ => (EmptyString, p)
  end.

(** [os.path.basename]: what follows the last separator of the path
    without its drive. *)
Definition basename (p : string) : string :=
  let rest := snd (splitdrive p) in
  slice_from (Z.max (rfind sep rest) (rfind altsep rest) + 1)%Z rest.

Fixpoint last_char (s : string) : option ascii :=
  match s with
  | EmptyString => None
  | String c EmptyString => Some c
  | String _ s' => last_char s'
  end.

(** [os.path.join(a, b)] for a relative [b] without drive: a separator is
    added unless the path of [a] behind its drive is empty or ends in a
    separator. *)
Definition join (a b : string) : string :=
  match last_char (snd (splitdrive a)) with
  | None => a ++ b
  | Some c => if is_sep c then a ++ b else a ++ String sep b
  end.

Definition abspath (p : string) : string := p.

End OsPath.

(** ** Results and the state monad of the script

    A Python computation either returns a value, raises an exception
    (an instance of [Exception], identified with its [str]), or raises
    [SystemExit] through [sys.exit].  The state survives all three. *)

Inductive result (A : Type) : Type :=
| Ok (a : A)
| Raise (e : string)
| Exit (code : Z).

Arguments Ok {A} a.
Arguments Raise {A} e.
Arguments Exit {A} code.

Definition M (S A : Type) : Type := S -> result A * S.

Definition ret {S A} (a : A) : M S A := fun s => (Ok a, s).

Definition bind {S A B} (m : M S A) (k : A -> M S B) : M S B :=
  fun s =>
    match m s with
    | (Ok a, s') => k a s'
    | (Raise e, s') => (Raise e, s')
    | (Exit c, s') => (Exit c, s')
    end.

Notation "'let*' x ':=' m 'in' k" := (bind m (fun x => k))
  (at level 10, x name, m at level 100, k at level 200).
Notation "m '>>' k" := (bind m (fun _ => k))
  (at level 90, right associativity).

(** [try: m  except Exception as e: h e]; [SystemExit] passes through. *)
Definition try_except {S A} (m : M S A) (h : string -> M S A) : M S A :=
  fun s =>
    match m s with
    | (Raise e, s') => h e s'
    | other => other
    end.

(** [try: m  except: pass], the bare handler, which catches everything. *)
Definition try_pass {S} (m : M S unit) : M S unit :=
  fun s =>
    match m s with
    | (Ok u, s') => (Ok u, s')
    | (_, s') => (Ok tt, s')
    end.

(** [try: m  finally: c].  The outcome of [m] stands unless [c] itself
    raises. *)
Definition try_finally {S A} (m : M S A) (c : M S unit) : M S A :=
  fun s =>
    match m s with
    | (r, s') =>
        match c s' with
        | (Ok _, s'') => (r, s'')
        | (Raise e, s'') => (Raise e, s'')
        | (Exit code, s'') => (Exit code, s'')
        end
    end.

(** Exit status of the interpreter for the outcome of the main block. *)
Definition exit_status {A} (r : result A) : Z :=
  match r with
  | Ok _ => 0
  | Exit code => code
  | Raise _ => 1
  end%Z.

(** ** The world outside the script *)

(** The calls the script makes on the PowerPoint COM server. *)
Inductive ComCall : Type :=
| CreateObject (progid : string)
| PresentationsOpen (path : string)
| SaveAs (path : string) (fmt : Z)
| Close
| Quit.

(** What the COM server does during the life of one application instance:
    [Some msg] makes the call raise an exception whose [str] is [msg];
    a [SaveAs] that does not raise writes its file with the given
    modification time. *)
Record ComScript : Type := mkComScript {
  on_create : option string;
  on_open : option string;
  on_save : string + Z;
  on_close : option string;
  on_quit : option string
}.

(** The environment of a run: the working directory, the behaviour of the
    [n]-th application instance, and the time stamp given to what the
    script itself creates. *)
Record Env : Type := mkEnv {
  cwd : string;
  com : nat -> ComScript;
  stamp : Z
}.

(** The state of the world.  [entries] is what [os.listdir] answers for the
    source directory; the script never writes there. *)
Record World : Type := mkWorld {
  fs : gmap string Z;
  entries : list string;
  stdout : list string;
  com_log : list ComCall;
  com_instances : nat;
  written : list (string * string)
}.

Definition set_fs (f : gmap string Z -> gmap string Z) (w : World) : World :=
  mkWorld (f (fs w)) (entries w) (stdout w) (com_log w) (com_instances w)
    (written w).

Definition add_stdout (line : string) (w : World) : World :=
  mkWorld (fs w) (entries w) (stdout w ++ [line]) (com_log w)
    (com_instances w) (written w).

Definition add_com (c : ComCall) (w : World) : World :=
  mkWorld (fs w) (entries w) (stdout w) (com_log w ++ [c]) (com_instances w)
    (written w).

Definition next_instance (w : World) : World :=
  mkWorld (fs w) (entries w) (stdout w) (com_log w) (S (com_instances w))
    (written w).

Definition add_written (path text : string) (w : World) : World :=
  mkWorld (fs w) (entries w) (stdout w) (com_log w) (com_instances w)
    (written w ++ [(path, text)]).

(** *** Primitive operations *)

Definition print (line : string) : M World unit :=
  fun w => (Ok tt, add_stdout line w).

Definition path_exists (p : string) : M World bool :=
  fun w => (Ok (bool_decide (is_Some (fs w !! p))), w).

(** [os.path.getmtime] raises [OSError] on a path that does not exist. *)
Definition getmtime (p : string) : M World Z :=
  fun w =>
    match fs w !! p with
    | Some t => (Ok t, w)
    | None => (Raise ("[WinError 2] The system cannot find the file specified: " ++ p), w)
    end.

(** One level of [os.makedirs]: the directory is created when absent. *)
Definition mkdir (env : Env) (p : string) : M World unit :=
  fun w =>
    match fs w !! p with
    | Some _ => (Ok tt, w)
    | None => (Ok tt, set_fs (insert p (stamp env)) w)
    end.

Definition listdir : M World (list string) :=
  fun w => (Ok (entries w), w).

(** [with open(path, 'w', encoding='utf-8') as f: f.write(text)]. *)
Definition write_text (env : Env) (path text : string) : M World unit :=
  fun w => (Ok tt, add_written path text (set_fs (insert path (stamp env)) w)).

Definition sys_exit {A} (code : Z) : M World A :=
  fun w => (Exit code, w).

(** [comtypes.client.CreateObject]: starts instance number
    [com_instances w]; the handle is the instance number. *)
Definition create_object (env : Env) (progid : string) : M World nat :=
  fun w =>
    let n := com_instances w in
    let w' := next_instance (add_com (CreateObject progid) w) in
    match on_create (com env n) with
    | Some msg => (Raise msg, w')
    | None => (Ok n, w')
    end.

Definition presentations_open (env : Env) (app : nat) (path : string)
  : M World nat :=
  fun w =>
    let w' := add_com (PresentationsOpen path) w in
    match on_open (com env app) with
    | Some msg => (Raise msg, w')
    | None => (Ok app, w')
    end.

Definition save_as (env : Env) (pres : nat) (path : string) (fmt : Z)
  : M World unit :=
  fun w =>
    let w' := add_com (SaveAs path fmt) w in
    match on_save (com env pres) with
    | inl msg => (Raise msg, w')
    | inr t => (Ok tt, set_fs (insert path t) w')
    end.

Definition presentation_close (env : Env) (pres : nat) : M World unit :=
  fun w =>
    let w' := add_com Close w in
    match on_close (com env pres) with
    | Some msg => (Raise msg, w')
    | None => (Ok tt, w')
    end.

Definition powerpoint_quit (env : Env) (app : nat) : M World unit :=
  fun w =>
    let w' := add_com Quit w in
    match on_quit (com env app) with
    | Some msg => (Raise msg, w')
    | None => (Ok tt, w')
    end.

(** ** The script *)

Import PyStr OsPath.

(** *** [convert_ppt_to_pdf] (lines 6-56)

    The body runs over the world and the two local variables the
    [finally] clause inspects. *)

Record Locals : Type := mkLocals {
  powerpoint : option nat;
  presentation : option nat
}.

Definition lift {A} (m : M World A) : M (Locals * World) A :=
  fun s =>
    match m (snd s) with
    | (r, w') => (r, (fst s, w'))
    end.

Definition set_powerpoint (h : nat) : M (Locals * World) unit :=
  fun s => (Ok tt, (mkLocals (Some h) (presentation (fst s)), snd s)).

Definition set_presentation (h : nat) : M (Locals * World) unit :=
  fun s => (Ok tt, (mkLocals (powerpoint (fst s)) (Some h), snd s)).

Definition get_locals : M (Locals * World) Locals :=
  fun s => (Ok (fst s), s).

Definition not_installed_1 : string :=
  "  -> Error: Microsoft PowerPoint is not installed or not registered.".
Definition not_installed_2 : string :=
  "     (This script requires PowerPoint to be installed on the machine running it)".

(** Lines 23-35, the [try] block. *)
Definition convert_try (env : Env) (input_path output_path : string)
  : M (Locals * World) bool :=
  let* app := lift (create_object env "Powerpoint.Application") in
  set_powerpoint app >>
  let input_path := abspath input_path in
  let* pres := lift (presentations_open env app input_path) in
  set_presentation pres >>
  lift (save_as env pres output_path 32) >>
  lift (print ("  -> Success: " ++ basename output_path)) >>
  ret true.

(** Lines 37-44, the handler of [except Exception as e]. *)
Definition convert_except (input_path : string) (error_msg : string)
  : M (Locals * World) bool :=
  (if contains "Invalid class string" error_msg
      || contains "-2147221005" error_msg
   then lift (print not_installed_1) >> lift (print not_installed_2)
   else lift (print ("Error during conversion of " ++ basename input_path
                       ++ ": " ++ error_msg))) >>
  ret false.

(** Lines 46-56, the [finally] clause. *)
Definition convert_finally (env : Env) : M (Locals * World) unit :=
  let* l := get_locals in
  (match presentation l with
   | Some pres => try_pass (lift (presentation_close env pres))
   | None => ret tt
   end) >>
  (match powerpoint l with
   | Some app => try_pass (lift (powerpoint_quit env app))
   | None => ret tt
   end).

Definition convert_ppt_to_pdf (env : Env) (input_path output_path : string)
  : M World bool :=
  let input_path := abspath input_path in
  let output_path := abspath output_path in
  let* found := path_exists input_path in
  if negb found then
    print ("Error: Input file not found at " ++ input_path) >> ret false
  else
    print ("Converting " ++ basename input_path ++ "...") >>
    fun w =>
      match
        try_finally
          (try_except (convert_try env input_path output_path)
             (convert_except input_path))
          (convert_finally env)
          (mkLocals None None, w)
      with
      | (r, (_, w')) => (r, w')
      end.

(** *** The main block (lines 58-122) *)

Record Guide : Type := mkGuide {
  title : string;
  filename : string
}.

Definition source_dir (env : Env) : string := join (cwd env) "guide_source".
Definition public_dir (env : Env) : string := join (cwd env) "public".
Definition target_dir (env : Env) : string := join (public_dir env) "guides".

(** Line 75, the filter of the list comprehension. *)
Definition is_ppt (f : string) : bool :=
  endswith (lower f) ".pptx" || endswith (lower f) ".ppt".

Definition name_without_ext (file : string) : string := fst (splitext file).
Definition pdf_filename (file : string) : string :=
  name_without_ext file ++ ".pdf".
Definition source_file (env : Env) (file : string) : string :=
  join (source_dir env) file.
Definition target_file (env : Env) (file : string) : string :=
  join (target_dir env) (pdf_filename file).
Definition guide_entry (file : string) : Guide :=
  mkGuide (name_without_ext file) (pdf_filename file).

(** Lines 93-100: the value of [should_convert]. *)
Definition should_convert (env : Env) (file : string) : M World bool :=
  let* found := path_exists (target_file env file) in
  if found then
    let* src_mtime := getmtime (source_file env file) in
    let* tgt_mtime := getmtime (target_file env file) in
    if (tgt_mtime >? src_mtime)%Z then
      print ("Skipping " ++ file ++ " (PDF is up to date)") >> ret false
    else ret true
  else ret true.

(** Lines 86-111: the body of the [for] loop. *)
Definition process_file (env : Env) (file : string) (guide_list : list Guide)
  : M World (list Guide) :=
  let* convert := should_convert env file in
  let* success :=
    (if convert
     then convert_ppt_to_pdf env (source_file env file) (target_file env file)
     else ret true) in
  if success then ret (guide_list ++ [guide_entry file])%list
  else ret guide_list.

Fixpoint for_each (env : Env) (files : list string) (guide_list : list Guide)
  : M World (list Guide) :=
  match files with
  | [] => ret guide_list
  | file :: rest =>
      let* guide_list' := process_file env file guide_list in
      for_each env rest guide_list'
  end.

(** [json.dump(guide_list, f, ensure_ascii=False, indent=2)]: the text
    handed to the file object. *)
Module Json.

Definition hex_digit (n : nat) : ascii :=
  if (n <? 10)%nat then ascii_of_nat (48 + n) else ascii_of_nat (87 + n).

Definition escape_char (c : ascii) : string :=
  let n := nat_of_ascii c in
  if Ascii.eqb c quote then String backslash (String quote "")
  else if Ascii.eqb c backslash then String backslash (String backslash "")
  else if (n =? 8)%nat then String backslash "b"
  else if (n =? 9)%nat then String backslash "t"
  else if (n =? 10)%nat then String backslash "n"
  else if (n =? 12)%nat then String backslash "f"
  else if (n =? 13)%nat then String backslash "r"
  else if (n <? 32)%nat then
    String backslash
      ("u00" ++ String (hex_digit (n / 16)) (String (hex_digit (n mod 16)) ""))
  else String c "".

Fixpoint escape (s : string) : string :=
  match s with
  | EmptyString => EmptyString
  | String c s' => escape_char c ++ escape s'
  end.

Definition str (s : string) : string :=
  String quote (escape s ++ String quote "").

Definition nl : string := String (ascii_of_nat 10) "".

Definition object (g : Guide) : string :=
  "  {" ++ nl ++
  "    " ++ str "title" ++ ": " ++ str (title g) ++ "," ++ nl ++
  "    " ++ str "filename" ++ ": " ++ str (filename g) ++ nl ++
  "  }".

Fixpoint objects (l : list Guide) : string :=
  match l with
  | [] => EmptyString
  | [g] => object g ++ nl
  | g :: l' => object g ++ "," ++ nl ++ objects l'
  end.

Definition dumps (l : list Guide) : string :=
  match l with
  | [] => "[]"
  | _ => "[" ++ nl ++ objects l ++ "]"
  end.

End Json.

Definition list_file (env : Env) : string := join (target_dir env) "list.json".

(** Lines 113-122: the manifest and the closing banner. *)
Definition write_manifest (env : Env) (guide_list : list Guide)
  : M World unit :=
  write_text env (list_file env) (Json.dumps guide_list) >>
  print (repeat_str "-" 50) >>
  print "Update complete!" >>
  print ("Converted " ++ pretty (length guide_list) ++ " files.") >>
  print ("Guide list saved to: " ++ list_file env) >>
  print (repeat_str "-" 50).

Definition main (env : Env) : M World unit :=
  let* have_source := path_exists (source_dir env) in
  if negb have_source then
    mkdir env (source_dir env) >>
    print ("Created source directory: " ++ source_dir env) >>
    print "Please place your PPTX files in this folder." >>
    sys_exit 0
  else
    mkdir env (public_dir env) >>
    mkdir env (target_dir env) >>
    let* names := listdir in
    let ppt_files := List.filter is_ppt names in
    match ppt_files with
    | [] =>
        print ("No PowerPoint files found in " ++ source_dir env) >>
        print "Please place your .pptx files there and run this script again." >>
        sys_exit 0
    | _ =>
        print ("Found " ++ pretty (length ppt_files) ++ " PowerPoint files.") >>
        let* guide_list := for_each env ppt_files [] in
        write_manifest env guide_list
    end.

(** ** Notions used by the statements *)

(** Some character of [s] is not a dot. *)
Fixpoint has_non_dot (s : string) : bool :=
  match s with
  | EmptyString => false
  | String c s' => negb (Ascii.eqb c extsep) || has_non_dot s'
  end.

(** A directory entry on Windows: no separator and no colon. *)
Definition plain_name (f : string) : bool :=
  negb (has_char sep f) && negb (has_char altsep f) && negb (has_char colon f).

(** The suffixes line 75 accepts, in any letter case. *)
Definition accepted_ext (ext : string) : Prop :=
  lower ext = ".pptx" \/ lower ext = ".ppt".

(** The test of line 39. *)
Definition is_not_installed (error_msg : string) : bool :=
  contains "Invalid class string" error_msg
  || contains "-2147221005" error_msg.

(** What the handler of lines 37-44 prints for an exception. *)
Definition error_lines (input_path error_msg : string) : list string :=
  if is_not_installed error_msg then [not_installed_1; not_installed_2]
  else ["Error during conversion of " ++ basename input_path ++ ": "
          ++ error_msg].

Definition add_lines (lines : list string) (w : World) : World :=
  fold_left (fun w l => add_stdout l w) lines w.

(** The first exception the COM server raises before the export is done,
    if any: the error of a conversion. *)
Definition conversion_error (s : ComScript) : option string :=
  match on_create s with
  | Some msg => Some msg
  | None =>
      match on_open s with
      | Some msg => Some msg
      | None =>
          match on_save s with
          | inl msg => Some msg
          | inr _ => None
          end
      end
  end.

(** The COM calls of one conversion whose input file exists. *)
Definition conversion_calls (s : ComScript) (i o : string) : list ComCall :=
  match on_create s with
  | Some _ => [CreateObject "Powerpoint.Application"]
  | None =>
      match on_open s with
      | Some _ =>
          [CreateObject "Powerpoint.Application"; PresentationsOpen i; Quit]
      | None =>
          [CreateObject "Powerpoint.Application"; PresentationsOpen i;
           SaveAs o 32; Close; Quit]
      end
  end.

(** The same environment with a COM server whose [Close] and [Quit] never
    raise. *)
Definition quiet_cleanup (env : Env) : Env :=
  mkEnv (cwd env)
    (fun n =>
       mkComScript (on_create (com env n)) (on_open (com env n))
         (on_save (com env n)) None None)
    (stamp env).

(** The target of [file] exists and is strictly newer than [file]. *)
Definition target_current (env : Env) (file : string) (w : World) : bool :=
  match fs w !! target_file env file, fs w !! source_file env file with
  | Some tgt_mtime, Some src_mtime => (tgt_mtime >? src_mtime)%Z
  | _, _ => false
  end.

(** Lines 102-111 when [should_convert] is true: the conversion is called
    and its answer decides on the entry. *)
Definition convert_and_record (env : Env) (file : string)
    (guide_list : list Guide) : M World (list Guide) :=
  let* success :=
    convert_ppt_to_pdf env (source_file env file) (target_file env file) in
  if success then ret (guide_list ++ [guide_entry file])%list
  else ret guide_list.

(** The candidates of a run, in the order of the directory listing. *)
Definition candidates (w : World) : list string :=
  List.filter is_ppt (entries w).

(** Every candidate listed is present in the file system. *)
Definition listing_ok (env : Env) (w : World) : Prop :=
  forall f, In f (candidates w) -> is_Some (fs w !! source_file env f).


(** The outcome of a conversion whose input file exists, call by call. *)
Definition converted (env : Env) (i o : string) (w : World)
  : result bool * World :=
  let s := com env (com_instances w) in
  let w1 := next_instance (add_com (CreateObject "Powerpoint.Application")
              (add_stdout ("Converting " ++ basename i ++ "...") w)) in
  match on_create s with
  | Some msg => (Ok false, add_lines (error_lines i msg) w1)
  | None =>
      let w2 := add_com (PresentationsOpen i) w1 in
      match on_open s with
      | Some msg => (Ok false, add_com Quit (add_lines (error_lines i msg) w2))
      | None =>
          let w3 := add_com (SaveAs o 32) w2 in
          match on_save s with
          | inl msg =>
              (Ok false,
               add_com Quit (add_com Close (add_lines (error_lines i msg) w3)))
          | inr t =>
              (Ok true,
               add_com Quit (add_com Close
                 (add_stdout ("  -> Success: " ++ basename o)
                    (set_fs (insert o t) w3))))
          end
      end
  end.

(** The line printed when a file is skipped, and the text of the
    [OSError] of [os.path.getmtime]. *)
Definition skip_line (file : string) : string :=
  "Skipping " ++ file ++ " (PDF is up to date)".

Definition not_found (p : string) : string :=
  "[WinError 2] The system cannot find the file specified: " ++ p.

Definition after_mkdirs (env : Env) (w : World) : World :=
  snd (mkdir env (target_dir env) (snd (mkdir env (public_dir env) w))).

Definition found_line (w : World) : string :=
  "Found " ++ pretty (length (candidates w)) ++ " PowerPoint files.".

Definition banner (env : Env) (guide_list : list Guide) : list string :=
  [repeat_str "-" 50; "Update complete!";
   "Converted " ++ pretty (length guide_list) ++ " files.";
   "Guide list saved to: " ++ list_file env; repeat_str "-" 50].

(** Existing entries stay, whatever their time stamp becomes. *)
Definition fs_grows (w w' : World) : Prop :=
  forall p, is_Some (fs w !! p) -> is_Some (fs w' !! p).

(** Existing entries keep their time stamp. *)
Definition fs_keeps (w w' : World) : Prop :=
  forall p t, fs w !! p = Some t -> fs w' !! p = Some t.


(** The COM calls of one complete conversion. *)
Definition is_block (calls : list ComCall) : Prop :=
  exists s i o, calls = conversion_calls s i o.

(** ** Sample environments and worlds *)

Module Demo.

Definition succeeds (t : Z) : ComScript :=
  mkComScript None None (inr t) None None.

Definition open_fails (msg : string) : ComScript :=
  mkComScript None (Some msg) (inr 0%Z) None None.


(** Every conversion succeeds; the [n]-th one stamps its file [100 + n]. *)
Definition env_ok : Env :=
  mkEnv "C:/work" (fun n => succeeds (100 + Z.of_nat n)) 50.

(** PowerPoint never manages to open a file, and fails to quit as well. *)
Definition env_broken : Env :=
  mkEnv "C:/work"
    (fun _ => mkComScript None (Some "PowerPoint could not open the file.")
                (inr 0%Z) None (Some "RPC server unavailable"))
    50.


(** The first application instance cannot open its file, the later ones
    work. *)
Definition env_first_fails : Env :=
  mkEnv "C:/work"
    (fun n => match n with
              | O => open_fails "PowerPoint could not open the file."
              | S _ => succeeds (100 + Z.of_nat n)
              end)
    50.

Definition world (files : list (string * Z)) (names : list string) : World :=
  mkWorld (list_to_map files) names [] [] 0 [].

(** No [guide_source] directory yet. *)
Definition w_bare : World := world [] [].

Definition w_intro : World :=
  world [(source_dir env_ok, 1%Z); (source_file env_ok "Intro.pptx", 10%Z)]
    ["Intro.pptx"; "notes.txt"].

Definition w_broken : World :=
  world [(source_dir env_ok, 1%Z); (source_file env_ok "Broken.pptx", 10%Z)]
    ["Broken.pptx"].

(** Two presentations with the same base name. *)
Definition w_twins : World :=
  world [(source_dir env_ok, 1%Z); (source_file env_ok "Intro.pptx", 10%Z);
         (source_file env_ok "Intro.ppt", 20%Z)]
    ["Intro.pptx"; "Intro.ppt"].

(** The same, the second one edited after the first conversion. *)
Definition w_twins_late : World :=
  world [(source_dir env_ok, 1%Z); (source_file env_ok "Intro.pptx", 10%Z);
         (source_file env_ok "Intro.ppt", 200%Z)]
    ["Intro.pptx"; "Intro.ppt"].

(** A source directory without any presentation. *)
Definition w_no_ppt : World :=
  world [(source_dir env_ok, 1%Z)] ["notes.txt"].

(** [Gone.pptx] is listed but no longer on disk, and its PDF is there. *)
Definition w_dangling : World :=
  world [(source_dir env_ok, 1%Z); (target_file env_ok "Gone.pptx", 5%Z)]
    ["Gone.pptx"].

(** [Intro.pdf] is older than, as old as, and newer than [Intro.pptx]. *)
Definition w_target (tgt_mtime : Z) : World :=
  world [(source_dir env_ok, 1%Z); (source_file env_ok "Intro.pptx", 10%Z);
         (target_file env_ok "Intro.pptx", tgt_mtime)]
    ["Intro.pptx"].


(** [Broken.pptx] is on disk; [Gone.pptx] is listed but gone, and its PDF
    is there. *)
Definition w_broken_then_gone : World :=
  world [(source_dir env_ok, 1%Z); (source_file env_ok "Broken.pptx", 10%Z);
         (target_file env_ok "Gone.pptx", 5%Z)]
    ["Broken.pptx"; "Gone.pptx"].

End Demo.

(** ** The script with the failures of its own operations

    Above, the operations the script runs outside any handler always
    succeed.  Here each can fail the way Python makes it fail: [print]
    raises [UnicodeEncodeError] on a line that standard output cannot
    encode, [os.makedirs] and [os.listdir] raise [OSError], and writing the
    manifest can fail when the file is opened or, its text being written in
    pieces, leave a truncated file.  The script is the same, line by line,
    over these operations. *)

Inductive WriteFault : Type :=
| OpenFails (msg : string)
| DumpFails (written_prefix msg : string).

Record Faults : Type := mkFaults {
  unprintable : string -> option string;
  makedirs_error : string -> option string;
  listdir_error : option string;
  write_fault : string -> string -> option WriteFault
}.

(** Every line can be printed; the manifest can be written. *)
Definition can_print (ft : Faults) : Prop :=
  forall line, unprintable ft line = None.

Definition can_write (ft : Faults) : Prop :=
  forall p text, write_fault ft p text = None.

(** None of these operations fails. *)
Definition no_faults (ft : Faults) : Prop :=
  can_print ft
  /\ (forall p, makedirs_error ft p = None)
  /\ listdir_error ft = None
  /\ can_write ft.

Module WithFaults.
Section Program.
Variable ft : Faults.
Variable env : Env.

Definition print (line : string) : M World unit :=
  fun w =>
    match unprintable ft line with
    | Some msg => (Raise msg, w)
    | None => (Ok tt, add_stdout line w)
    end.

Definition mkdir (p : string) : M World unit :=
  fun w =>
    match makedirs_error ft p with
    | Some msg => (Raise msg, w)
    | None =>
        match fs w !! p with
        | Some _ => (Ok tt, w)
        | None => (Ok tt, set_fs (insert p (stamp env)) w)
        end
    end.

Definition listdir : M World (list string) :=
  fun w =>
    match listdir_error ft with
    | Some msg => (Raise msg, w)
    | None => (Ok (entries w), w)
    end.

Definition write_text (path text : string) : M World unit :=
  fun w =>
    match write_fault ft path text with
    | Some (OpenFails msg) => (Raise msg, w)
    | Some (DumpFails written_prefix msg) =>
        (Raise msg,
         add_written path written_prefix (set_fs (insert path (stamp env)) w))
    | None =>
        (Ok tt, add_written path text (set_fs (insert path (stamp env)) w))
    end.

(** Lines 23-35. *)
Definition convert_try (input_path output_path : string)
  : M (Locals * World) bool :=
  let* app := lift (create_object env "Powerpoint.Application") in
  set_powerpoint app >>
  let input_path := abspath input_path in
  let* pres := lift (presentations_open env app input_path) in
  set_presentation pres >>
  lift (save_as env pres output_path 32) >>
  lift (print ("  -> Success: " ++ basename output_path)) >>
  ret true.

(** Lines 37-44. *)
Definition convert_except (input_path : string) (error_msg : string)
  : M (Locals * World) bool :=
  (if contains "Invalid class string" error_msg
      || contains "-2147221005" error_msg
   then lift (print not_installed_1) >> lift (print not_installed_2)
   else lift (print ("Error during conversion of " ++ basename input_path
                       ++ ": " ++ error_msg))) >>
  ret false.

(** Lines 6-56. *)
Definition convert_ppt_to_pdf (input_path output_path : string)
  : M World bool :=
  let input_path := abspath input_path in
  let output_path := abspath output_path in
  let* found := path_exists input_path in
  if negb found then
    print ("Error: Input file not found at " ++ input_path) >> ret false
  else
    print ("Converting " ++ basename input_path ++ "...") >>
    fun w =>
      match
        try_finally
          (try_except (convert_try input_path output_path)
             (convert_except input_path))
          (convert_finally env)
          (mkLocals None None, w)
      with
      | (r, (_, w')) => (r, w')
      end.

(** Lines 93-100. *)
Definition should_convert (file : string) : M World bool :=
  let* found := path_exists (target_file env file) in
  if found then
    let* src_mtime := getmtime (source_file env file) in
    let* tgt_mtime := getmtime (target_file env file) in
    if (tgt_mtime >? src_mtime)%Z then
      print ("Skipping " ++ file ++ " (PDF is up to date)") >> ret false
    else ret true
  else ret true.

(** Lines 86-111. *)
Definition process_file (file : string) (guide_list : list Guide)
  : M World (list Guide) :=
  let* convert := should_convert file in
  let* success :=
    (if convert
     then convert_ppt_to_pdf (source_file env file) (target_file env file)
     else ret true) in
  if success then ret (guide_list ++ [guide_entry file])%list
  else ret guide_list.

Fixpoint for_each (files : list string) (guide_list : list Guide)
  : M World (list Guide) :=
  match files with
  | [] => ret guide_list
  | file :: rest =>
      let* guide_list' := process_file file guide_list in
      for_each rest guide_list'
  end.

(** Lines 113-122. *)
Definition write_manifest (guide_list : list Guide) : M World unit :=
  write_text (list_file env) (Json.dumps guide_list) >>
  print (repeat_str "-" 50) >>
  print "Update complete!" >>
  print ("Converted " ++ pretty (length guide_list) ++ " files.") >>
  print ("Guide list saved to: " ++ list_file env) >>
  print (repeat_str "-" 50).

(** Lines 58-122. *)
Definition main : M World unit :=
  let* have_source := path_exists (source_dir env) in
  if negb have_source then
    mkdir (source_dir env) >>
    print ("Created source directory: " ++ source_dir env) >>
    print "Please place your PPTX files in this folder." >>
    sys_exit 0
  else
    mkdir (public_dir env) >>
    mkdir (target_dir env) >>
    let* names := listdir in
    let ppt_files := List.filter is_ppt names in
    match ppt_files with
    | [] =>
        print ("No PowerPoint files found in " ++ source_dir env) >>
        print "Please place your .pptx files there and run this script again." >>
        sys_exit 0
    | _ =>
        print ("Found " ++ pretty (length ppt_files) ++ " PowerPoint files.") >>
        let* guide_list := for_each ppt_files [] in
        write_manifest guide_list
    end.

End Program.
End WithFaults.

(** Sample fault oracles. *)
Module DemoFaults.

Definition none : Faults :=
  mkFaults (fun _ => None) (fun _ => None) None (fun _ _ => None).

(** Standard output cannot encode the error text of the COM server. *)
Definition mute_errors : Faults :=
  mkFaults
    (fun line => if contains "could not open" line
                 then Some "'charmap' codec can't encode characters"
                 else None)
    (fun _ => None) None (fun _ _ => None).

(** Standard output cannot encode the name [Intro]. *)
Definition mute_intro : Faults :=
  mkFaults
    (fun line => if contains "Intro" line
                 then Some "'charmap' codec can't encode characters"
                 else None)
    (fun _ => None) None (fun _ _ => None).

(** [guide_source] cannot be listed. *)
Definition unlistable : Faults :=
  mkFaults (fun _ => None) (fun _ => None)
    (Some "[WinError 267] The directory name is invalid") (fun _ _ => None).

(** The manifest cannot be written to its end. *)
Definition short_write : Faults :=
  mkFaults (fun _ => None) (fun _ => None) None
    (fun _ text => Some (DumpFails (substring 0 4 text)
                           "'utf-8' codec can't encode character")).

(** The output directory cannot be created. *)
Definition read_only : Faults :=
  mkFaults (fun _ => None)
    (fun _ => Some "[WinError 5] Access is denied") None (fun _ _ => None).

End DemoFaults.

(** * Facts about strings and paths *)

Lemma app_nil_str (s : string) : "" ++ s = s.
Proof. reflexivity. Qed.

Lemma app_cons_str c (a b : string) : String c a ++ b = String c (a ++ b).
Proof. reflexivity. Qed.

Lemma string_length_app (a b : string) :
  String.length (a ++ b) = (String.length a + String.length b)%nat.
Proof. induction a as [|c a IH]; rewrite ?app_nil_str, ?app_cons_str; simpl; [reflexivity | now rewrite IH]. Qed.

Lemma substring_all (s : string) : substring 0 (String.length s) s = s.
Proof. induction s as [|c s IH]; simpl; [reflexivity | now rewrite IH]. Qed.

Lemma substring_app_skip (a b : string) (n : nat) :
  substring (String.length a) n (a ++ b) = substring 0 n b.
Proof. induction a as [|c a IH]; rewrite ?app_nil_str, ?app_cons_str; simpl; [reflexivity | apply IH]. Qed.

Lemma substring_app_take (a b : string) :
  substring 0 (String.length a) (a ++ b) = a.
Proof. induction a as [|c a IH]; rewrite ?app_nil_str, ?app_cons_str; simpl; [now destruct b | now rewrite IH]. Qed.

Lemma slice_to_app (a b : string) :
  slice_to (Z.of_nat (String.length a)) (a ++ b) = a.
Proof. unfold slice_to. rewrite Nat2Z.id. apply substring_app_take. Qed.

Lemma slice_from_app (a b : string) :
  slice_from (Z.of_nat (String.length a)) (a ++ b) = b.
Proof.
  unfold slice_from. rewrite Nat2Z.id, string_length_app, substring_app_skip.
  replace (String.length a + String.length b - String.length a)%nat
    with (String.length b) by lia.
  apply substring_all.
Qed.

Lemma slice_from_0 (s : string) : slice_from 0 s = s.
Proof. apply (slice_from_app "" s). Qed.

Lemma app_assoc_str (a b c : string) : (a ++ b) ++ c = a ++ (b ++ c).
Proof. induction a as [|x a IH]; rewrite ?app_nil_str, ?app_cons_str; congruence. Qed.

Lemma rfind_from_app c (a b : string) i last :
  rfind_from c (a ++ b) i last
  = rfind_from c b (i + Z.of_nat (String.length a))%Z (rfind_from c a i last).
Proof.
  revert i last. induction a as [|x a IH]; intros i last; rewrite ?app_nil_str, ?app_cons_str; simpl.
  - now rewrite Z.add_0_r.
  - rewrite IH. f_equal. lia.
Qed.

Lemma rfind_from_absent c (s : string) i last :
  has_char c s = false -> rfind_from c s i last = last.
Proof.
  revert i last. induction s as [|x s IH]; intros i last H; simpl in *.
  - reflexivity.
  - apply orb_false_iff in H as [Hx Hs]. rewrite Hx. now apply IH.
Qed.

Lemma rfind_from_range c (s : string) i last :
  (last < i)%Z ->
  (last <= rfind_from c s i last < i + Z.of_nat (String.length s))%Z.
Proof.
  revert i last. induction s as [|x s IH]; intros i last H; simpl String.length; simpl rfind_from.
  - lia.
  - destruct (Ascii.eqb x c).
    + specialize (IH (i + 1)%Z i ltac:(lia)). lia.
    + specialize (IH (i + 1)%Z last ltac:(lia)). lia.
Qed.

Lemma rfind_range c (s : string) :
  (-1 <= rfind c s < Z.of_nat (String.length s))%Z.
Proof. unfold rfind. pose proof (rfind_from_range c s 0 (-1) ltac:(lia)). lia. Qed.

Lemma rfind_absent c (s : string) : has_char c s = false -> rfind c s = (-1)%Z.
Proof. apply rfind_from_absent. Qed.

Lemma rfind_app_hit c (a b : string) :
  has_char c b = false ->
  rfind c (a ++ String c b) = Z.of_nat (String.length a).
Proof.
  intros H. unfold rfind. rewrite rfind_from_app. simpl rfind_from.
  rewrite Ascii.eqb_refl. now rewrite rfind_from_absent.
Qed.

Lemma rfind_app_miss c (a b : string) :
  has_char c b = false -> rfind c (a ++ b) = rfind c a.
Proof.
  intros H. unfold rfind. rewrite rfind_from_app. now rewrite rfind_from_absent.
Qed.


Lemma has_char_app c (a b : string) :
  has_char c (a ++ b) = has_char c a || has_char c b.
Proof.
  induction a as [|x a IH]; rewrite ?app_nil_str, ?app_cons_str; simpl.
  - reflexivity.
  - rewrite IH. now rewrite orb_assoc.
Qed.

Lemma slice_one_app (pre : string) c (t : string) :
  slice_one (Z.of_nat (String.length pre)) (pre ++ String c t) = String c "".
Proof.
  unfold slice_one. rewrite Nat2Z.id, substring_app_skip. simpl.
  now destruct t.
Qed.

Lemma skip_leading_dots_app (s pre rest : string) :
  skip_leading_dots (String.length s) (pre ++ s ++ rest)
    (Z.of_nat (String.length pre))
    (Z.of_nat (String.length pre + String.length s))
  = has_non_dot s.
Proof.
  revert pre. induction s as [|c s IH]; intros pre; simpl.
  - reflexivity.
  - rewrite app_cons_str, slice_one_app.
    replace (Z.of_nat (String.length pre) <? Z.of_nat (String.length pre + S (String.length s)))%Z
      with true by (symmetry; apply Z.ltb_lt; lia).
    simpl.
    destruct (Ascii.eqb c extsep) eqn:Hc; simpl; [|reflexivity].
    specialize (IH (pre ++ String c "")).
    rewrite app_assoc_str, app_cons_str, app_nil_str in IH.
    rewrite string_length_app in IH. simpl in IH.
    replace (Z.of_nat (String.length pre) + 1)%Z
      with (Z.of_nat (String.length pre + 1)) by lia.
    replace (String.length pre + S (String.length s))%nat
      with (String.length pre + 1 + String.length s)%nat by lia.
    exact IH.
Qed.

(** [splitext] on a name without separators whose last dot starts [e]. *)
Lemma splitext_last_dot (stem e : string) :
  has_char sep stem = false -> has_char altsep stem = false ->
  has_char sep e = false -> has_char altsep e = false ->
  has_char extsep e = false ->
  splitext (stem ++ String extsep e)
  = if has_non_dot stem then (stem, String extsep e)
    else (stem ++ String extsep e, "").
Proof.
  intros Hs1 Hs2 He1 He2 He3. unfold splitext.
  rewrite (rfind_absent sep), (rfind_absent altsep), (rfind_app_hit extsep)
    by (rewrite ?has_char_app; simpl; rewrite ?Hs1, ?Hs2, ?He1, ?He2, ?He3;
        reflexivity).
  replace (Z.max (-1) (-1)) with (-1)%Z by reflexivity.
  replace (Z.of_nat (String.length stem) >? -1)%Z with true
    by (symmetry; apply Z.gtb_lt; lia).
  replace (Z.to_nat (Z.of_nat (String.length stem) - (-1 + 1)))
    with (String.length stem) by lia.
  pose proof (skip_leading_dots_app stem "" (String extsep e)) as H.
  rewrite app_nil_str in H. simpl in H.
  change (Z.of_nat 0) with 0%Z in H.
  change (-1 + 1)%Z with 0%Z. rewrite H. simpl.
  destruct (has_non_dot stem); [|reflexivity].
  now rewrite slice_to_app, slice_from_app.
Qed.

Lemma last_sep_app (x : string) s (f : string) :
  is_sep s = true ->
  has_char sep f = false -> has_char altsep f = false ->
  Z.max (rfind sep (x ++ String s f)) (rfind altsep (x ++ String s f))
  = Z.of_nat (String.length x).
Proof.
  intros Hs H1 H2. unfold is_sep in Hs.
  pose proof (rfind_range sep x). pose proof (rfind_range altsep x).
  destruct (Ascii.eqb s sep) eqn:E1.
  - apply Ascii.eqb_eq in E1. subst s.
    rewrite rfind_app_hit by assumption.
    rewrite rfind_app_miss by (simpl; rewrite H2; reflexivity). lia.
  - simpl in Hs. apply Ascii.eqb_eq in Hs. subst s.
    rewrite (rfind_app_hit altsep) by assumption.
    rewrite rfind_app_miss by (simpl; rewrite H1; reflexivity). lia.
Qed.

Lemma after_last_sep_app (x : string) s (f : string) :
  is_sep s = true ->
  has_char sep f = false -> has_char altsep f = false ->
  slice_from
    (Z.max (rfind sep (x ++ String s f)) (rfind altsep (x ++ String s f)) + 1)
    (x ++ String s f) = f.
Proof.
  intros Hs H1 H2. rewrite last_sep_app by assumption.
  pose proof (slice_from_app (x ++ String s "") f) as H.
  rewrite string_length_app, app_assoc_str, app_cons_str, app_nil_str in H.
  simpl in H.
  replace (Z.of_nat (String.length x) + 1)%Z
    with (Z.of_nat (String.length x + 1)) by lia.
  exact H.
Qed.

Lemma after_last_sep_plain (f : string) :
  has_char sep f = false -> has_char altsep f = false ->
  slice_from (Z.max (rfind sep f) (rfind altsep f) + 1) f = f.
Proof.
  intros H1 H2. rewrite !rfind_absent by assumption. apply slice_from_0.
Qed.

Lemma last_char_snoc (p : string) l :
  last_char p = Some l -> exists r, p = r ++ String l "".
Proof.
  induction p as [|c p IH]; simpl; [discriminate|].
  destruct p as [|d p].
  - intros [= ->]. now exists "".
  - intros H. destruct (IH H) as [r Hr]. exists (String c r).
    rewrite app_cons_str. now rewrite <- Hr.
Qed.

Lemma last_char_none (p : string) : last_char p = None -> p = "".
Proof.
  induction p as [|c p IH]; simpl; [reflexivity|].
  destruct p; [discriminate|]. intros H. specialize (IH H). discriminate.
Qed.

Lemma splitdrive_plain (g : string) :
  has_char colon g = false -> splitdrive g = ("", g).
Proof.
  intros Hg. destruct g as [|a [|b g]]; try reflexivity.
  cbn [has_char] in Hg. apply orb_false_iff in Hg as [_ Hg].
  apply orb_false_iff in Hg as [Hb _]. unfold splitdrive. now rewrite Hb.
Qed.

Lemma splitdrive_app (d g : string) :
  has_char colon g = false ->
  snd (splitdrive (d ++ g)) = snd (splitdrive d) ++ g.
Proof.
  intros Hg. destruct d as [|c [|x rest]];
    rewrite ?app_cons_str, ?app_nil_str.
  - now rewrite splitdrive_plain.
  - destruct g as [|a g]; [reflexivity|].
    cbn [has_char] in Hg. apply orb_false_iff in Hg as [Ha _].
    unfold splitdrive. now rewrite Ha.
  - unfold splitdrive. now destruct (Ascii.eqb x colon).
Qed.

(** The base name of a directory entry joined to a directory is the
    entry. *)
Lemma basename_join (d f : string) :
  plain_name f = true -> basename (join d f) = f.
Proof.
  unfold plain_name. intros H.
  apply andb_true_iff in H as [H H3]. apply andb_true_iff in H as [H1 H2].
  apply negb_true_iff in H1, H2, H3.
  unfold basename, join.
  destruct (last_char (snd (splitdrive d))) as [l|] eqn:Hl.
  - destruct (last_char_snoc _ _ Hl) as [r Hr].
    destruct (is_sep l) eqn:Hsep.
    + rewrite splitdrive_app by assumption.
      rewrite Hr, app_assoc_str, app_cons_str, app_nil_str.
      now apply after_last_sep_app.
    + rewrite splitdrive_app by (simpl; rewrite H3; reflexivity).
      now apply after_last_sep_app.
  - rewrite splitdrive_app by assumption.
    rewrite (last_char_none _ Hl), app_nil_str.
    now apply after_last_sep_plain.
Qed.

Lemma lower_length (s : string) : String.length (lower s) = String.length s.
Proof. induction s as [|c s IH]; simpl; congruence. Qed.

Lemma lower_substring (n k : nat) (s : string) :
  lower (substring n k s) = substring n k (lower s).
Proof.
  revert n k. induction s as [|c s IH]; intros n k; simpl.
  - now destruct n, k.
  - destruct n, k; simpl; try reflexivity; now rewrite IH.
Qed.

Lemma substring_split (n : nat) (s : string) :
  (n <= String.length s)%nat ->
  s = substring 0 n s ++ substring n (String.length s - n) s.
Proof.
  revert n. induction s as [|c s IH]; intros n Hn; simpl in *.
  - now destruct n.
  - destruct n; simpl.
    + rewrite app_nil_str. now rewrite substring_all.
    + rewrite app_cons_str. f_equal. apply IH. lia.
Qed.

Lemma endswith_lower_split (f suffix : string) :
  endswith (lower f) suffix = true ->
  exists stem ext, f = stem ++ ext /\ lower ext = suffix.
Proof.
  unfold endswith. rewrite lower_length. intros H.
  apply andb_true_iff in H as [Hk He].
  apply Nat.leb_le in Hk. apply String.eqb_eq in He.
  exists (substring 0 (String.length f - String.length suffix) f),
         (substring (String.length f - String.length suffix)
            (String.length suffix) f).
  split.
  - rewrite (substring_split (String.length f - String.length suffix) f) at 1
      by lia.
    do 2 f_equal. lia.
  - now rewrite lower_substring.
Qed.

Lemma lower_ascii_dot c : lower_ascii c = extsep -> c = extsep.
Proof.
  destruct c as [[] [] [] [] [] [] [] []]; vm_compute; congruence.
Qed.

Lemma lower_ascii_letter c x :
  lower_ascii c = x ->
  (x = "p" \/ x = "t" \/ x = "x")%char ->
  Ascii.eqb c sep = false /\ Ascii.eqb c altsep = false
  /\ Ascii.eqb c extsep = false.
Proof.
  intros <- H.
  destruct c as [[] [] [] [] [] [] [] []]; vm_compute in H |- *;
    (repeat split; try reflexivity);
    destruct H as [H|[H|H]]; discriminate H.
Qed.

Lemma accepted_ext_shape (ext : string) :
  accepted_ext ext ->
  exists e, ext = String extsep e /\ has_char sep e = false
            /\ has_char altsep e = false /\ has_char extsep e = false.
Proof.
  intros [H|H].
  - destruct ext as [|c0 [|c1 [|c2 [|c3 [|c4 [|]]]]]]; try discriminate H.
    injection H as H0 H1 H2 H3 H4.
    apply lower_ascii_dot in H0. subst c0.
    eexists; split; [reflexivity|].
    destruct (lower_ascii_letter _ _ H1) as (?&?&?); [tauto|].
    destruct (lower_ascii_letter _ _ H2) as (?&?&?); [tauto|].
    destruct (lower_ascii_letter _ _ H3) as (?&?&?); [tauto|].
    destruct (lower_ascii_letter _ _ H4) as (?&?&?); [tauto|].
    simpl. repeat match goal with H : _ = false |- _ => rewrite H end.
    repeat split; reflexivity.
  - destruct ext as [|c0 [|c1 [|c2 [|c3 [|]]]]]; try discriminate H.
    injection H as H0 H1 H2 H3.
    apply lower_ascii_dot in H0. subst c0.
    eexists; split; [reflexivity|].
    destruct (lower_ascii_letter _ _ H1) as (?&?&?); [tauto|].
    destruct (lower_ascii_letter _ _ H2) as (?&?&?); [tauto|].
    destruct (lower_ascii_letter _ _ H3) as (?&?&?); [tauto|].
    simpl. repeat match goal with H : _ = false |- _ => rewrite H end.
    repeat split; reflexivity.
Qed.

Lemma is_ppt_split (f : string) :
  is_ppt f = true -> exists stem ext, f = stem ++ ext /\ accepted_ext ext.
Proof.
  unfold is_ppt, accepted_ext. intros H. apply orb_true_iff in H as [H|H];
    apply endswith_lower_split in H as (stem & ext & -> & He); eauto.
Qed.

Lemma name_without_ext_stem (stem ext : string) :
  has_char sep stem = false -> has_char altsep stem = false ->
  accepted_ext ext ->
  name_without_ext (stem ++ ext)
  = if has_non_dot stem then stem else stem ++ ext.
Proof.
  intros H1 H2 He. destruct (accepted_ext_shape _ He) as (e & -> & ? & ? & ?).
  unfold name_without_ext. rewrite splitext_last_dot by assumption.
  now destruct (has_non_dot stem).
Qed.

(** [splitext], [join] and [basename] on sample names. *)

Example splitext_intro : OsPath.splitext "Intro.pptx" = ("Intro", ".pptx").
Proof. reflexivity. Qed.

Example splitext_two_dots : OsPath.splitext "v1.2.PPT" = ("v1.2", ".PPT").
Proof. reflexivity. Qed.

Example splitext_hidden : OsPath.splitext ".pptx" = (".pptx", "").
Proof. reflexivity. Qed.

Example join_drive : OsPath.join "C:" "guide_source" = "C:guide_source".
Proof. reflexivity. Qed.

Example basename_drive : OsPath.basename "C:Intro.pptx" = "Intro.pptx".
Proof. reflexivity. Qed.

Example basename_joined :
  OsPath.basename (OsPath.join (OsPath.join "C:/work" "guide_source") "Intro.pptx")
  = "Intro.pptx".
Proof. reflexivity. Qed.

(** * Facts about one conversion *)

Arguments contains _ _ : simpl never.
Arguments basename _ : simpl never.

Ltac unfold_convert :=
  unfold convert_ppt_to_pdf, try_finally, try_except, convert_try,
    convert_except, convert_finally, try_pass, lift, bind, ret, get_locals,
    set_powerpoint, set_presentation, create_object, presentations_open,
    save_as, presentation_close, powerpoint_quit, print, path_exists, abspath.

(** [convert_ppt_to_pdf] in closed form. *)
Lemma convert_ppt_to_pdf_eq env i o w :
  convert_ppt_to_pdf env i o w =
  match fs w !! i with
  | None => (Ok false, add_stdout ("Error: Input file not found at " ++ i) w)
  | Some _ => converted env i o w
  end.
Proof.
  unfold converted, error_lines, is_not_installed. unfold_convert.
  destruct (fs w !! i) as [t|] eqn:Hi; simpl; [|reflexivity].
  destruct (on_create (com env (com_instances w))) as [msg|]; simpl.
  { destruct (_ || _); reflexivity. }
  destruct (on_open (com env (com_instances w))) as [msg|]; simpl.
  { destruct (_ || _); simpl; destruct (on_quit _); reflexivity. }
  destruct (on_save (com env (com_instances w))) as [msg|t']; simpl.
  { destruct (_ || _); simpl; destruct (on_close _), (on_quit _); reflexivity. }
  destruct (on_close _), (on_quit _); reflexivity.
Qed.

Lemma fs_add_lines l w : fs (add_lines l w) = fs w.
Proof. revert w. induction l as [|x l IH]; intros w; simpl; [reflexivity | now rewrite IH]. Qed.

Lemma com_log_add_lines l w : com_log (add_lines l w) = com_log w.
Proof. revert w. induction l as [|x l IH]; intros w; simpl; [reflexivity | now rewrite IH]. Qed.

Lemma com_instances_add_lines l w : com_instances (add_lines l w) = com_instances w.
Proof. revert w. induction l as [|x l IH]; intros w; simpl; [reflexivity | now rewrite IH]. Qed.

Lemma written_add_lines l w : written (add_lines l w) = written w.
Proof. revert w. induction l as [|x l IH]; intros w; simpl; [reflexivity | now rewrite IH]. Qed.

Lemma entries_add_lines l w : entries (add_lines l w) = entries w.
Proof. revert w. induction l as [|x l IH]; intros w; simpl; [reflexivity | now rewrite IH]. Qed.

Lemma stdout_add_lines l w : stdout (add_lines l w) = (stdout w ++ l)%list.
Proof.
  revert w. induction l as [|x l IH]; intros w; simpl.
  - now rewrite app_nil_r.
  - rewrite IH. simpl. now rewrite <- app_assoc.
Qed.

Lemma converted_result env i o w :
  fst (converted env i o w)
  = Ok (match conversion_error (com env (com_instances w)) with
        | None => true
        | Some _ => false
        end).
Proof.
  unfold converted, conversion_error.
  destruct (on_create _); [reflexivity|].
  destruct (on_open _); [reflexivity|].
  destruct (on_save _); reflexivity.
Qed.

Lemma converted_com_log env i o w :
  com_log (snd (converted env i o w))
  = (com_log w ++ conversion_calls (com env (com_instances w)) i o)%list.
Proof.
  unfold converted, conversion_calls.
  destruct (on_create _); simpl.
  { now rewrite com_log_add_lines. }
  destruct (on_open _); simpl.
  { rewrite com_log_add_lines. simpl. now rewrite <- !app_assoc. }
  destruct (on_save _); simpl; rewrite ?com_log_add_lines; simpl;
    now rewrite <- !app_assoc.
Qed.

Lemma converted_instances env i o w :
  com_instances (snd (converted env i o w)) = S (com_instances w).
Proof.
  unfold converted.
  destruct (on_create _); simpl; [now rewrite com_instances_add_lines|].
  destruct (on_open _); simpl; [now rewrite com_instances_add_lines|].
  destruct (on_save _); simpl; [now rewrite com_instances_add_lines|reflexivity].
Qed.

Lemma converted_written env i o w :
  written (snd (converted env i o w)) = written w.
Proof.
  unfold converted.
  destruct (on_create _); simpl; [now rewrite written_add_lines|].
  destruct (on_open _); simpl; [now rewrite written_add_lines|].
  destruct (on_save _); simpl; [now rewrite written_add_lines|reflexivity].
Qed.

Lemma converted_entries env i o w :
  entries (snd (converted env i o w)) = entries w.
Proof.
  unfold converted.
  destruct (on_create _); simpl; [now rewrite entries_add_lines|].
  destruct (on_open _); simpl; [now rewrite entries_add_lines|].
  destruct (on_save _); simpl; [now rewrite entries_add_lines|reflexivity].
Qed.

Lemma converted_fs env i o w :
  fs (snd (converted env i o w))
  = match conversion_error (com env (com_instances w)),
          on_save (com env (com_instances w)) with
    | None, inr t => <[o := t]> (fs w)
    | _, _ => fs w
    end.
Proof.
  unfold converted, conversion_error.
  destruct (on_create _); simpl.
  { now rewrite fs_add_lines. }
  destruct (on_open _); simpl.
  { now rewrite fs_add_lines. }
  destruct (on_save _); simpl; [now rewrite fs_add_lines|reflexivity].
Qed.

Lemma converted_stdout env i o w :
  stdout (snd (converted env i o w))
  = (stdout w ++
     ("Converting " ++ basename i ++ "...")%string ::
     match conversion_error (com env (com_instances w)) with
     | Some msg => error_lines i msg
     | None => ["  -> Success: " ++ basename o]%string
     end)%list.
Proof.
  unfold converted, conversion_error.
  destruct (on_create _); simpl.
  { rewrite stdout_add_lines. simpl. now rewrite <- app_assoc. }
  destruct (on_open _); simpl.
  { rewrite stdout_add_lines. simpl. now rewrite <- app_assoc. }
  destruct (on_save _); simpl; [rewrite stdout_add_lines; simpl|];
    now rewrite <- app_assoc.
Qed.

Lemma should_convert_eq env file w :
  should_convert env file w =
  match fs w !! target_file env file with
  | None => (Ok true, w)
  | Some t =>
      match fs w !! source_file env file with
      | None => (Raise (not_found (source_file env file)), w)
      | Some s =>
          if (t >? s)%Z then (Ok false, add_stdout (skip_line file) w)
          else (Ok true, w)
      end
  end.
Proof.
  unfold should_convert, bind, path_exists, getmtime, print, ret.
  destruct (fs w !! target_file env file) as [t|] eqn:Ht; simpl; [|reflexivity].
  destruct (fs w !! source_file env file) as [s|] eqn:Hs; simpl; [|reflexivity].
  rewrite Ht. now destruct (t >? s)%Z.
Qed.

Lemma process_file_eq env file gl w :
  process_file env file gl w =
  match fs w !! target_file env file with
  | None => convert_and_record env file gl w
  | Some t =>
      match fs w !! source_file env file with
      | None => (Raise (not_found (source_file env file)), w)
      | Some s =>
          if (t >? s)%Z
          then (Ok (gl ++ [guide_entry file])%list, add_stdout (skip_line file) w)
          else convert_and_record env file gl w
      end
  end.
Proof.
  unfold process_file. unfold bind at 1. rewrite should_convert_eq.
  destruct (fs w !! target_file env file) as [t|]; [|reflexivity].
  destruct (fs w !! source_file env file) as [s|]; [|reflexivity].
  now destruct (t >? s)%Z.
Qed.

Lemma convert_and_record_eq env file gl w :
  convert_and_record env file gl w =
  match convert_ppt_to_pdf env (source_file env file) (target_file env file) w with
  | (Ok true, w') => (Ok (gl ++ [guide_entry file])%list, w')
  | (Ok false, w') => (Ok gl, w')
  | (Raise e, w') => (Raise e, w')
  | (Exit c, w') => (Exit c, w')
  end.
Proof.
  unfold convert_and_record, bind, ret.
  destruct (convert_ppt_to_pdf _ _ _ _) as [[[ | ] | | ] w']; reflexivity.
Qed.

Lemma convert_returns env i o w :
  exists b, fst (convert_ppt_to_pdf env i o w) = Ok b.
Proof.
  rewrite convert_ppt_to_pdf_eq. destruct (fs w !! i).
  - rewrite converted_result. eauto.
  - simpl. eauto.
Qed.

(** * Facts about the loop and the main block *)

Section RunFacts.
Variable env : Env.

Lemma fs_grows_refl w : fs_grows w w.
Proof. intros p H. exact H. Qed.

Lemma fs_grows_trans w1 w2 w3 :
  fs_grows w1 w2 -> fs_grows w2 w3 -> fs_grows w1 w3.
Proof. intros H1 H2 p H. apply H2, H1, H. Qed.

Lemma fs_grows_insert w w' p t :
  fs w' = <[p := t]> (fs w) -> fs_grows w w'.
Proof.
  intros E q H. rewrite E. destruct (decide (p = q)) as [->|Hne].
  - rewrite lookup_insert_eq. eauto.
  - now rewrite lookup_insert_ne.
Qed.

Lemma fs_grows_same w w' : fs w' = fs w -> fs_grows w w'.
Proof. intros E p H. now rewrite E. Qed.

Lemma mkdir_eq p w :
  mkdir env p w =
  (Ok tt, match fs w !! p with
          | Some _ => w
          | None => set_fs (insert p (stamp env)) w
          end).
Proof. unfold mkdir. now destruct (fs w !! p). Qed.

Lemma bind_mkdir {B} p (k : unit -> M World B) w :
  bind (mkdir env p) k w = k tt (snd (mkdir env p w)).
Proof. unfold bind. now rewrite mkdir_eq. Qed.

Lemma mkdir_keeps p w : fs_keeps w (snd (mkdir env p w)).
Proof.
  intros q t H. rewrite mkdir_eq. simpl.
  destruct (fs w !! p) eqn:Hp; [exact H|]. simpl.
  rewrite lookup_insert_ne; [exact H|]. congruence.
Qed.

Lemma mkdir_frame p w :
  let w' := snd (mkdir env p w) in
  entries w' = entries w /\ stdout w' = stdout w /\ com_log w' = com_log w
  /\ com_instances w' = com_instances w /\ written w' = written w.
Proof. rewrite mkdir_eq. simpl. now destruct (fs w !! p). Qed.

Lemma after_mkdirs_keeps w : fs_keeps w (after_mkdirs env w).
Proof.
  intros p t H. unfold after_mkdirs. now apply mkdir_keeps, mkdir_keeps.
Qed.

Lemma after_mkdirs_frame w :
  let w' := after_mkdirs env w in
  entries w' = entries w /\ stdout w' = stdout w /\ com_log w' = com_log w
  /\ com_instances w' = com_instances w /\ written w' = written w.
Proof.
  unfold after_mkdirs.
  destruct (mkdir_frame (public_dir env) w) as (E1 & E2 & E3 & E4 & E5).
  destruct (mkdir_frame (target_dir env) (snd (mkdir env (public_dir env) w)))
    as (F1 & F2 & F3 & F4 & F5).
  simpl in *. repeat split; congruence.
Qed.

Lemma fs_keeps_grows w w' : fs_keeps w w' -> fs_grows w w'.
Proof. intros H p [t Ht]. exists t. now apply H. Qed.

Lemma write_manifest_eq gl w :
  write_manifest env gl w =
  (Ok tt,
   add_lines (banner env gl)
     (add_written (list_file env) (Json.dumps gl)
        (set_fs (insert (list_file env) (stamp env)) w))).
Proof. reflexivity. Qed.

(** The main block in closed form. *)
Lemma main_eq w :
  main env w =
  match fs w !! source_dir env with
  | None =>
      (Exit 0,
       add_lines ["Created source directory: " ++ source_dir env;
                  "Please place your PPTX files in this folder."]
         (set_fs (insert (source_dir env) (stamp env)) w))
  | Some _ =>
      match candidates w with
      | [] =>
          (Exit 0,
           add_lines ["No PowerPoint files found in " ++ source_dir env;
                      "Please place your .pptx files there and run this script again."]
             (after_mkdirs env w))
      | _ =>
          match for_each env (candidates w) []
                  (add_stdout (found_line w) (after_mkdirs env w)) with
          | (Ok guide_list, w') => write_manifest env guide_list w'
          | (Raise e, w') => (Raise e, w')
          | (Exit c, w') => (Exit c, w')
          end
      end
  end.
Proof.
  unfold main. unfold bind at 1. unfold path_exists.
  destruct (fs w !! source_dir env) as [t|] eqn:Hs; simpl.
  - rewrite !bind_mkdir. fold (after_mkdirs env w).
    unfold bind at 1, listdir.
    destruct (after_mkdirs_frame w) as (E & _). simpl in E. rewrite E.
    fold (candidates w). unfold found_line.
    destruct (candidates w) as [|f l] eqn:Hc.
    + reflexivity.
    + unfold bind at 1, print at 1. unfold bind at 1. reflexivity.
  - unfold bind, mkdir. rewrite Hs. reflexivity.
Qed.


(** What one conversion leaves alone. *)
Lemma convert_frame i o w :
  let w' := snd (convert_ppt_to_pdf env i o w) in
  fs_grows w w' /\ entries w' = entries w /\ written w' = written w.
Proof.
  rewrite convert_ppt_to_pdf_eq. destruct (fs w !! i).
  - cbv zeta. rewrite converted_entries, converted_written.
    repeat split. pose proof (converted_fs env i o w) as H.
    destruct (conversion_error _); [now apply fs_grows_same|].
    destruct (on_save _); [now apply fs_grows_same|].
    eapply fs_grows_insert; exact H.
  - simpl. repeat split. now apply fs_grows_same.
Qed.

Lemma process_file_frame file gl w :
  let w' := snd (process_file env file gl w) in
  fs_grows w w' /\ entries w' = entries w /\ written w' = written w.
Proof.
  assert (C : let w' := snd (convert_and_record env file gl w) in
              fs_grows w w' /\ entries w' = entries w
              /\ written w' = written w).
  { rewrite convert_and_record_eq.
    pose proof (convert_frame (source_file env file) (target_file env file) w)
      as H.
    destruct (convert_ppt_to_pdf _ _ _ _) as [[[|]| |] w']; exact H. }
  rewrite process_file_eq.
  destruct (fs w !! target_file env file); [|exact C].
  destruct (fs w !! source_file env file).
  - destruct (_ >? _)%Z; [|exact C]. simpl. repeat split.
    now apply fs_grows_same.
  - simpl. repeat split. apply fs_grows_refl.
Qed.

Lemma for_each_cons file rest gl w :
  for_each env (file :: rest) gl w =
  match process_file env file gl w with
  | (Ok gl', w') => for_each env rest gl' w'
  | (Raise e, w') => (Raise e, w')
  | (Exit c, w') => (Exit c, w')
  end.
Proof. reflexivity. Qed.

Lemma for_each_frame files gl w :
  let w' := snd (for_each env files gl w) in
  fs_grows w w' /\ entries w' = entries w /\ written w' = written w.
Proof.
  revert gl w. induction files as [|f files IH]; intros gl w.
  - simpl. repeat split. apply fs_grows_refl.
  - rewrite for_each_cons.
    pose proof (process_file_frame f gl w) as H.
    destruct (process_file env f gl w) as [[gl1| |] w1]; simpl in H;
      [|exact H|exact H].
    destruct H as (G & E & W). specialize (IH gl1 w1). simpl in IH.
    destruct IH as (G' & E' & W'). cbv zeta.
    repeat split; [eapply fs_grows_trans; eassumption|congruence|congruence].
Qed.

(** The body of the loop returns whenever the source file is there. *)
Lemma process_file_returns file gl w :
  is_Some (fs w !! source_file env file) ->
  exists gl', fst (process_file env file gl w) = Ok gl'
              /\ (gl' = gl \/ gl' = (gl ++ [guide_entry file])%list).
Proof.
  intros [s Hs].
  assert (C : exists gl', fst (convert_and_record env file gl w) = Ok gl'
              /\ (gl' = gl \/ gl' = (gl ++ [guide_entry file])%list)).
  { rewrite convert_and_record_eq.
    destruct (convert_returns env (source_file env file)
                (target_file env file) w) as [b Hb].
    destruct (convert_ppt_to_pdf _ _ _ _) as [r w']. simpl in Hb. subst r.
    destruct b; simpl; eauto. }
  rewrite process_file_eq, Hs.
  destruct (fs w !! target_file env file); [|exact C].
  destruct (_ >? _)%Z; [|exact C]. simpl. eauto.
Qed.

Lemma for_each_returns files gl w :
  (forall f, In f files -> is_Some (fs w !! source_file env f)) ->
  exists gl' kept,
    fst (for_each env files gl w) = Ok gl'
    /\ gl' = (gl ++ map guide_entry kept)%list /\ sublist kept files.
Proof.
  revert gl w. induction files as [|f files IH]; intros gl w Hsrc.
  - exists gl, []. simpl. rewrite app_nil_r. repeat split. constructor.
  - rewrite for_each_cons.
    destruct (process_file_returns f gl w) as (gl1 & H1 & Hgl1).
    { apply Hsrc. now left. }
    pose proof (process_file_frame f gl w) as (G & _).
    destruct (process_file env f gl w) as [r w1]. simpl in H1, G. subst r.
    destruct (IH gl1 w1) as (gl' & kept & H & -> & Hsub).
    { intros g Hg. apply G, Hsrc. now right. }
    destruct Hgl1 as [->| ->].
    + exists (gl ++ map guide_entry kept)%list, kept.
      repeat split; [exact H|]. now constructor.
    + exists (gl ++ map guide_entry (f :: kept))%list, (f :: kept).
      repeat split.
      * rewrite H. simpl. now rewrite <- app_assoc.
      * now constructor.
Qed.



End RunFacts.

(** * Facts about whole runs *)


Lemma plain_name_app a b :
  plain_name a = true -> plain_name b = true -> plain_name (a ++ b) = true.
Proof.
  unfold plain_name. rewrite !has_char_app, !andb_true_iff, !negb_true_iff.
  intros ((-> & ->) & ->) ((-> & ->) & ->). auto.
Qed.


(** A failed conversion in closed form. *)
Lemma process_file_failed env file gl w msg :
  is_Some (fs w !! source_file env file) ->
  target_current env file w = false ->
  conversion_error (com env (com_instances w)) = Some msg ->
  process_file env file gl w
  = (Ok gl, snd (converted env (source_file env file) (target_file env file) w)).
Proof.
  intros [s Hs] Hcur Herr.
  assert (C : convert_and_record env file gl w
              = (Ok gl, snd (converted env (source_file env file)
                               (target_file env file) w))).
  { rewrite convert_and_record_eq, convert_ppt_to_pdf_eq, Hs.
    pose proof (converted_result env (source_file env file)
                  (target_file env file) w) as H. rewrite Herr in H.
    destruct (converted _ _ _ _) as [r w']. simpl in H. now subst r. }
  rewrite process_file_eq. unfold target_current in Hcur. rewrite Hs in *.
  destruct (fs w !! target_file env file); [|exact C].
  now rewrite Hcur.
Qed.

(** The main block returns and writes the manifest when there is something
    to convert and every candidate is on disk. *)
Lemma main_completes env w :
  is_Some (fs w !! source_dir env) -> candidates w <> [] ->
  listing_ok env w ->
  exists gl kept w1,
    for_each env (candidates w) [] (add_stdout (found_line w) (after_mkdirs env w))
    = (Ok gl, w1)
    /\ main env w = write_manifest env gl w1
    /\ written w1 = written w
    /\ gl = map guide_entry kept /\ sublist kept (candidates w).
Proof.
  intros [t Ht] Hne Hok.
  destruct (for_each_returns env (candidates w) []
              (add_stdout (found_line w) (after_mkdirs env w)))
    as (gl & kept & Hgl & -> & Hsub).
  { intros f Hf. simpl. apply fs_keeps_grows with (w := w).
    - apply after_mkdirs_keeps.
    - now apply Hok. }
  pose proof (for_each_frame env (candidates w) []
                (add_stdout (found_line w) (after_mkdirs env w))) as (_ & _ & W).
  destruct (for_each env (candidates w) [] _) as [r w1] eqn:E.
  simpl in Hgl, W. subst r.
  exists (map guide_entry kept), kept, w1. repeat split; try assumption.
  - rewrite main_eq, Ht. destruct (candidates w); [contradiction|].
    now rewrite E.
  - rewrite W. apply (after_mkdirs_frame env w).
Qed.



(** A name that is only dots before its suffix has no extension for
    [os.path.splitext] and is kept whole. *)
Example name_without_ext_hidden : name_without_ext ".pptx" = ".pptx".
Proof. reflexivity. Qed.


(** Without [listing_ok] the main block can raise: [os.path.getmtime] of a
    source that is listed but gone is not guarded. *)
Example dangling_entry_raises :
  fst (main Demo.env_ok Demo.w_dangling)
  = Raise (not_found (source_file Demo.env_ok "Gone.pptx"))
  /\ written (snd (main Demo.env_ok Demo.w_dangling)) = [].
Proof. vm_compute. split; reflexivity. Qed.

(** * The claims *)

(** C1: in the body of the loop, the guide entry of the file is appended
    if and only if the staleness check found the target current (it existed
    with a strictly later modification time) or the conversion was called
    and returned [True]; when the conversion returned [False] the list is
    left as it was. *)
Theorem entry_iff_current_or_converted env file gl w gl' w' :
  process_file env file gl w = (Ok gl', w') ->
  (gl' = (gl ++ [guide_entry file])%list <->
     target_current env file w = true \/
     (target_current env file w = false /\
      fst (convert_ppt_to_pdf env (source_file env file)
             (target_file env file) w) = Ok true))
  /\ (gl' = gl <->
        target_current env file w = false /\
        fst (convert_ppt_to_pdf env (source_file env file)
               (target_file env file) w) = Ok false).
Proof.
  assert (Hne : (gl ++ [guide_entry file])%list <> gl).
  { intros E. apply (f_equal (@length Guide)) in E.
    rewrite length_app in E. simpl in E. lia. }
  assert (C : convert_and_record env file gl w = (Ok gl', w') ->
    (gl' = (gl ++ [guide_entry file])%list <->
       fst (convert_ppt_to_pdf env (source_file env file)
              (target_file env file) w) = Ok true)
    /\ (gl' = gl <->
          fst (convert_ppt_to_pdf env (source_file env file)
                 (target_file env file) w) = Ok false)).
  { rewrite convert_and_record_eq.
    destruct (convert_ppt_to_pdf _ _ _ _) as [[[|]| |] w1]; simpl;
      intros [= <- <-]; split; split; intros H;
      try reflexivity; try discriminate H; congruence. }
  rewrite process_file_eq. unfold target_current.
  destruct (fs w !! target_file env file) as [t|].
  - destruct (fs w !! source_file env file) as [s|]; [|discriminate].
    destruct (t >? s)%Z.
    + intros [= <- <-]. split; split; intros H.
      * now left.
      * reflexivity.
      * contradiction.
      * destruct H; discriminate.
    + intros H. destruct (C H) as [C1 C2]. split; split; intros G.
      * right. split; [reflexivity|]. now apply C1.
      * destruct G as [G|[_ G]]; [discriminate|]. now apply C1.
      * split; [reflexivity|]. now apply C2.
      * destruct G as [_ G]. now apply C2.
  - intros H. destruct (C H) as [C1 C2]. split; split; intros G.
    + right. split; [reflexivity|]. now apply C1.
    + destruct G as [G|[_ G]]; [discriminate|]. now apply C1.
    + split; [reflexivity|]. now apply C2.
    + destruct G as [_ G]. now apply C2.
Qed.

Lemma entry_iff_current_or_converted_witness :
  target_current Demo.env_ok "Intro.pptx" (Demo.w_target 11) = true \/
  (target_current Demo.env_ok "Intro.pptx" (Demo.w_target 11) = false /\
   fst (convert_ppt_to_pdf Demo.env_ok (source_file Demo.env_ok "Intro.pptx")
          (target_file Demo.env_ok "Intro.pptx") (Demo.w_target 11)) = Ok true).
Proof.
  refine (proj1 (proj1 (entry_iff_current_or_converted Demo.env_ok "Intro.pptx"
            [] (Demo.w_target 11) [guide_entry "Intro.pptx"]
            (snd (process_file Demo.env_ok "Intro.pptx" [] (Demo.w_target 11)))
            _)) _).
  - vm_compute. reflexivity.
  - reflexivity.
Defined.

(** C2: when the derived target path does not exist the body of the loop
    is the call of the conversion; when it exists, the body only prints the
    skip line and records the entry if the target is strictly newer than
    the source, and is the call of the conversion if the target is as old
    as the source or older.  A skipped file starts no application instance,
    a converted one starts exactly one. *)
Theorem staleness_decides_conversion env file gl w :
  (fs w !! target_file env file = None ->
   process_file env file gl w = convert_and_record env file gl w)
  /\ (forall src_mtime tgt_mtime,
        fs w !! source_file env file = Some src_mtime ->
        fs w !! target_file env file = Some tgt_mtime ->
        ((src_mtime < tgt_mtime)%Z ->
           process_file env file gl w
           = (Ok (gl ++ [guide_entry file])%list, add_stdout (skip_line file) w)
           /\ com_instances (snd (process_file env file gl w))
              = com_instances w)
        /\ ((tgt_mtime <= src_mtime)%Z ->
              process_file env file gl w = convert_and_record env file gl w
              /\ com_instances (snd (process_file env file gl w))
                 = S (com_instances w))).
Proof.
  split.
  - intros Ht. now rewrite process_file_eq, Ht.
  - intros s t Hs Ht. rewrite process_file_eq, Hs, Ht. split; intros H.
    + replace (t >? s)%Z with true by (symmetry; apply Z.gtb_lt; lia).
      split; reflexivity.
    + replace (t >? s)%Z with false
        by (symmetry; apply not_true_is_false; intros G;
            apply Z.gtb_lt in G; lia).
      split; [reflexivity|].
      rewrite convert_and_record_eq, convert_ppt_to_pdf_eq, Hs.
      pose proof (converted_instances env (source_file env file)
                    (target_file env file) w) as Hi.
      destruct (converted _ _ _ _) as [[[|]| |] w']; exact Hi.
Qed.

Lemma staleness_decides_conversion_witness :
  process_file Demo.env_ok "Intro.pptx" [] (Demo.w_target 10)
  = convert_and_record Demo.env_ok "Intro.pptx" [] (Demo.w_target 10)
  /\ com_instances
       (snd (process_file Demo.env_ok "Intro.pptx" [] (Demo.w_target 10)))
     = 1%nat.
Proof.
  refine (proj2 (proj2 (staleness_decides_conversion Demo.env_ok "Intro.pptx"
            [] (Demo.w_target 10)) 10%Z 10%Z _ _) _).
  - vm_compute. reflexivity.
  - vm_compute. reflexivity.
  - lia.
Defined.

(** A conversion that raises in a COM call, when the files that remain
    are on disk: the body of the loop adds nothing, the loop goes on and
    the manifest is written. *)
Lemma failed_conversion_goes_on env file rest gl w msg :
  plain_name file = true ->
  is_Some (fs w !! source_file env file) ->
  target_current env file w = false ->
  conversion_error (com env (com_instances w)) = Some msg ->
  (forall f, In f rest -> is_Some (fs w !! source_file env f)) ->
  exists w',
    process_file env file gl w = (Ok gl, w')
    /\ stdout w'
       = (stdout w ++
          ("Converting " ++ file ++ "...")%string ::
          (if is_not_installed msg then [not_installed_1; not_installed_2]
           else [("Error during conversion of " ++ file ++ ": " ++ msg)%string]))%list
    /\ fs w' = fs w
    /\ for_each env (file :: rest) gl w = for_each env rest gl w'
    /\ exists gl' w'',
         for_each env rest gl w' = (Ok gl', w'')
         /\ fst (write_manifest env gl' w'') = Ok tt
         /\ written (snd (write_manifest env gl' w''))
            = (written w ++ [(list_file env, Json.dumps gl')])%list.
Proof.
  intros Hplain Hsrc Hcur Herr Hrest.
  exists (snd (converted env (source_file env file) (target_file env file) w)).
  pose proof (process_file_failed env file gl w msg Hsrc Hcur Herr) as Hp.
  assert (Hfs : fs (snd (converted env (source_file env file)
                           (target_file env file) w)) = fs w).
  { rewrite converted_fs, Herr. reflexivity. }
  split; [exact Hp|]. split; [|split; [exact Hfs|split]].
  - rewrite converted_stdout, Herr. unfold error_lines, source_file.
    now rewrite basename_join.
  - now rewrite for_each_cons, Hp.
  - destruct (for_each_returns env rest gl
                (snd (converted env (source_file env file)
                        (target_file env file) w)))
      as (gl' & kept & Hgl & _ & _).
    { intros f Hf. rewrite Hfs. now apply Hrest. }
    pose proof (for_each_frame env rest gl
                  (snd (converted env (source_file env file)
                          (target_file env file) w))) as (_ & _ & W).
    destruct (for_each env rest gl _) as [r w''] eqn:E.
    simpl in Hgl, W. subst r. exists gl', w''. split; [reflexivity|].
    rewrite write_manifest_eq. simpl. split; [reflexivity|].
    rewrite ?written_add_lines. simpl. now rewrite W, converted_written.
Qed.

(** The main block when every candidate listed is on disk: it leaves
    through [sys.exit(0)] without a manifest, or runs to its end and writes
    one. *)
Lemma main_exits_or_completes env w :
  listing_ok env w ->
  exit_status (fst (main env w)) = 0%Z
  /\ (fs w !! source_dir env = None \/ candidates w = [] ->
      fst (main env w) = Exit 0 /\ written (snd (main env w)) = written w)
  /\ (is_Some (fs w !! source_dir env) -> candidates w <> [] ->
      exists kept,
        fst (main env w) = Ok tt
        /\ written (snd (main env w))
           = (written w ++
              [(list_file env, Json.dumps (map guide_entry kept))])%list
        /\ sublist kept (candidates w)).
Proof.
  intros Hok.
  assert (Early : fs w !! source_dir env = None \/ candidates w = [] ->
                  fst (main env w) = Exit 0
                  /\ written (snd (main env w)) = written w).
  { intros H. rewrite main_eq.
    destruct (fs w !! source_dir env) eqn:Hs.
    - destruct H as [H|H]; [discriminate|]. rewrite H. simpl.
      split; [reflexivity|]. apply (after_mkdirs_frame env w).
    - simpl. split; reflexivity. }
  assert (Full : is_Some (fs w !! source_dir env) -> candidates w <> [] ->
      exists kept,
        fst (main env w) = Ok tt
        /\ written (snd (main env w))
           = (written w ++
              [(list_file env, Json.dumps (map guide_entry kept))])%list
        /\ sublist kept (candidates w)).
  { intros Hs Hne.
    destruct (main_completes env w Hs Hne Hok)
      as (gl & kept & w1 & _ & -> & W & -> & Hsub).
    exists kept. rewrite write_manifest_eq. simpl. split; [reflexivity|].
    split; [|exact Hsub]. rewrite ?written_add_lines. simpl. now rewrite W. }
  split; [|split; assumption].
  destruct (fs w !! source_dir env) eqn:Hs.
  - destruct (candidates w) eqn:Hc.
    + destruct Early as [-> _]; auto.
    + destruct Full as (kept & -> & _); eauto; discriminate.
  - destruct Early as [-> _]; auto.
Qed.




(** C7: a conversion whose input exists always returns a boolean; its COM
    calls are [CreateObject] alone when no instance could be created,
    [CreateObject; Open; Quit] when the open call raises, and
    [CreateObject; Open; SaveAs; Close; Quit] when the presentation was
    opened, whether the export raises or not; and the whole outcome is the
    one of the same conversion with a [Close] and a [Quit] that never
    raise. *)
Theorem cleanup_on_every_path env input_path output_path w :
  is_Some (fs w !! abspath input_path) ->
  (exists b, fst (convert_ppt_to_pdf env input_path output_path w) = Ok b)
  /\ com_log (snd (convert_ppt_to_pdf env input_path output_path w))
     = (com_log w ++
        conversion_calls (com env (com_instances w))
          (abspath input_path) (abspath output_path))%list
  /\ convert_ppt_to_pdf env input_path output_path w
     = convert_ppt_to_pdf (quiet_cleanup env) input_path output_path w.
Proof.
  intros [t Ht]. unfold abspath in *. split; [apply convert_returns|].
  rewrite !convert_ppt_to_pdf_eq, Ht. split.
  - apply converted_com_log.
  - reflexivity.
Qed.

Lemma cleanup_on_every_path_witness :
  com_log (snd (convert_ppt_to_pdf Demo.env_broken
                  (source_file Demo.env_broken "Broken.pptx")
                  (target_file Demo.env_broken "Broken.pptx") Demo.w_broken))
  = [CreateObject "Powerpoint.Application";
     PresentationsOpen (source_file Demo.env_broken "Broken.pptx"); Quit].
Proof.
  refine (proj1 (proj2 (cleanup_on_every_path Demo.env_broken
            (source_file Demo.env_broken "Broken.pptx")
            (target_file Demo.env_broken "Broken.pptx") Demo.w_broken _))).
  vm_compute. eauto.
Defined.

(** C9: with [Intro.pptx] and [Intro.ppt] in the source directory, both
    processed successfully, the manifest holds the entry
    [{title: Intro, filename: Intro.pdf}] twice: once when the second file
    is skipped because the PDF of the first is newer, and once when it is
    converted again over the same target. *)
Theorem same_base_name_listed_twice :
  let twice := [mkGuide "Intro" "Intro.pdf"; mkGuide "Intro" "Intro.pdf"] in
  (fst (main Demo.env_ok Demo.w_twins) = Ok tt
   /\ written (snd (main Demo.env_ok Demo.w_twins))
      = [(list_file Demo.env_ok, Json.dumps twice)]
   /\ com_instances (snd (main Demo.env_ok Demo.w_twins)) = 1%nat)
  /\ (fst (main Demo.env_ok Demo.w_twins_late) = Ok tt
      /\ written (snd (main Demo.env_ok Demo.w_twins_late))
         = [(list_file Demo.env_ok, Json.dumps twice)]
      /\ com_instances (snd (main Demo.env_ok Demo.w_twins_late)) = 2%nat)
  /\ target_file Demo.env_ok "Intro.pptx" = target_file Demo.env_ok "Intro.ppt"
  /\ guide_entry "Intro.pptx" = guide_entry "Intro.ppt".
Proof. vm_compute. repeat split. Qed.



(** * Further facts about paths and runs *)

Lemma join_shape (a : string) :
  exists x, (x = "" \/ x = String sep "") /\ forall b, join a b = a ++ x ++ b.
Proof.
  unfold join. destruct (last_char (snd (splitdrive a))) as [c|].
  - destruct (is_sep c).
    + exists "". split; [now left|reflexivity].
    + exists (String sep ""). split; [now right|reflexivity].
  - exists "". split; [now left|reflexivity].
Qed.

Lemma last_char_app (a : string) c (b : string) :
  last_char (a ++ String c b) = last_char (String c b).
Proof.
  induction a as [|x a IH]; rewrite ?app_nil_str, ?app_cons_str; [reflexivity|].
  cbn [last_char]. destruct (a ++ String c b) eqn:E.
  - destruct a; discriminate E.
  - exact IH.
Qed.

Lemma string_app_neq (a b : string) : b <> "" -> a ++ b <> a.
Proof.
  intros Hb E. apply (f_equal String.length) in E.
  rewrite string_length_app in E. destruct b; [contradiction|]. simpl in E. lia.
Qed.

Lemma lower_app (a b : string) : lower (a ++ b) = lower a ++ lower b.
Proof.
  induction a as [|c a IH]; rewrite ?app_nil_str, ?app_cons_str; simpl;
    [reflexivity|]. rewrite IH. reflexivity.
Qed.

Lemma endswith_app (a suffix : string) : endswith (a ++ suffix) suffix = true.
Proof.
  unfold endswith. rewrite string_length_app.
  apply andb_true_iff. split.
  - apply Nat.leb_le. lia.
  - replace (String.length a + String.length suffix - String.length suffix)%nat
      with (String.length a) by lia.
    rewrite substring_app_skip, substring_all. apply String.eqb_refl.
Qed.

Lemma rfind_from_split c (s : string) i last :
  (last < i)%Z ->
  (rfind_from c s i last = last /\ has_char c s = false)
  \/ exists a b, s = a ++ String c b /\ has_char c b = false
                 /\ rfind_from c s i last = (i + Z.of_nat (String.length a))%Z.
Proof.
  revert i last. induction s as [|x s IH]; intros i last Hl; simpl.
  - now left.
  - destruct (Ascii.eqb x c) eqn:Hx.
    + apply Ascii.eqb_eq in Hx. subst x.
      destruct (IH (i + 1)%Z i ltac:(lia)) as [[E Hn]|(a & b & -> & Hb & E)].
      * right. exists "", s. rewrite app_nil_str. simpl. repeat split; auto; rewrite E; lia.
      * right. exists (String c a), b. rewrite app_cons_str. simpl.
        repeat split; auto; rewrite E; lia.
    + destruct (IH (i + 1)%Z last ltac:(lia)) as [[E Hn]|(a & b & -> & Hb & E)].
      * left. simpl. auto.
      * right. exists (String x a), b. rewrite app_cons_str. simpl.
        repeat split; auto; rewrite E; lia.
Qed.

Lemma rfind_split c (s : string) :
  (rfind c s = -1 /\ has_char c s = false)%Z
  \/ exists a b, s = a ++ String c b /\ has_char c b = false
                 /\ rfind c s = Z.of_nat (String.length a).
Proof.
  destruct (rfind_from_split c s 0 (-1) ltac:(lia)) as [H|(a & b & H1 & H2 & H3)].
  - now left.
  - right. exists a, b. repeat split; auto.
Qed.

(** [splitext] cuts a path in two, and what it cuts off is empty or one
    extension. *)
Lemma splitext_root_and_ext (p : string) :
  fst (splitext p) ++ snd (splitext p) = p
  /\ (snd (splitext p) = ""
      \/ exists e, snd (splitext p) = String extsep e
                   /\ has_char extsep e = false
                   /\ has_char sep e = false /\ has_char altsep e = false).
Proof.
  unfold splitext.
  destruct ((rfind extsep p >? Z.max (rfind sep p) (rfind altsep p))%Z
            && skip_leading_dots _ p _ _) eqn:E.
  - apply andb_true_iff in E as [E _]. apply Z.gtb_lt in E.
    pose proof (rfind_range sep p) as R1. pose proof (rfind_range altsep p) as R2.
    destruct (rfind_split extsep p) as [[H _]|(a & b & Hp & Hb & H)]; [lia|].
    subst p. rewrite H in *. cbn [fst snd].
    rewrite slice_to_app, slice_from_app.
    split; [reflexivity|]. right. exists b. split; [reflexivity|].
    split; [exact Hb|].
    assert (S : forall c, c <> extsep ->
              (rfind c (a ++ String extsep b) < Z.of_nat (String.length a))%Z ->
              has_char c b = false).
    { intros c Hc Hlt. destruct (has_char c b) eqn:Hcb; [|reflexivity].
      exfalso. revert Hlt. unfold rfind. rewrite rfind_from_app.
      cbn [rfind_from]. destruct (Ascii.eqb extsep c) eqn:Hec.
      { apply Ascii.eqb_eq in Hec. congruence. }
      intros Hlt.
      pose proof (rfind_from_range c a 0 (-1) ltac:(lia)) as Ra.
      destruct (rfind_from_split c b (0 + Z.of_nat (String.length a) + 1)
                  (rfind_from c a 0 (-1)) ltac:(lia))
        as [[_ Hn]|(a' & b' & _ & _ & E')]; [congruence|].
      rewrite E' in Hlt. lia. }
    split; apply S; try discriminate; lia.
  - cbn [fst snd]. split; [|now left].
    induction p as [|c p IH]; [reflexivity|]. rewrite app_cons_str. f_equal.
    clear. induction p as [|c p IH]; [reflexivity|]. rewrite app_cons_str.
    now f_equal.
Qed.
(** Joining an entry to a directory whose name ends in a letter puts a
    backslash between them. *)
Lemma join_after_letter (d : string) c (tail name : string) :
  has_char colon (String c tail) = false ->
  last_char (String c tail) = Some "e"%char
  \/ last_char (String c tail) = Some "s"%char ->
  join (d ++ String c tail) name = (d ++ String c tail) ++ String sep name.
Proof.
  intros Hc Hl. unfold join.
  rewrite splitdrive_app by exact Hc.
  rewrite last_char_app.
  destruct Hl as [-> | ->]; reflexivity.
Qed.

Section Paths.
Variable env : Env.

Lemma output_dirs_shape :
  exists x y,
    source_dir env = cwd env ++ x ++ "guide_source"
    /\ public_dir env = cwd env ++ x ++ "public"
    /\ target_dir env = cwd env ++ x ++ "public" ++ y ++ "guides".
Proof.
  destruct (join_shape (cwd env)) as (x & _ & Hx).
  destruct (join_shape (public_dir env)) as (y & _ & Hy).
  exists x, y. unfold target_dir. rewrite Hy. unfold source_dir, public_dir.
  rewrite !Hx. repeat split. now rewrite !app_assoc_str.
Qed.

Lemma source_file_eq file :
  source_file env file = source_dir env ++ String sep file.
Proof.
  unfold source_file. destruct output_dirs_shape as (x & y & -> & _).
  rewrite <- (app_assoc_str (cwd env) x "guide_source").
  apply (join_after_letter (cwd env ++ x) "g" "uide_source"); auto.
Qed.

Lemma in_target_dir name :
  join (target_dir env) name = target_dir env ++ String sep name.
Proof.
  destruct output_dirs_shape as (x & y & _ & _ & ->).
  replace (cwd env ++ x ++ "public" ++ y ++ "guides")
    with ((cwd env ++ x ++ "public" ++ y) ++ "guides")
    by now rewrite !app_assoc_str.
  apply (join_after_letter _ "g" "uides"); auto.
Qed.

Lemma target_file_eq file :
  target_file env file = target_dir env ++ String sep (pdf_filename file).
Proof. apply in_target_dir. Qed.

Lemma list_file_eq : list_file env = target_dir env ++ String sep "list.json".
Proof. apply in_target_dir. Qed.

Lemma under_source_not_output rest out :
  source_dir env ++ rest <> public_dir env ++ out.
Proof.
  destruct output_dirs_shape as (x & y & -> & -> & _).
  rewrite !app_assoc_str. intros E.
  apply (inj (String.app (cwd env))) in E.
  apply (inj (String.app x)) in E. discriminate E.
Qed.

Lemma target_dir_under_public :
  exists out, target_dir env = public_dir env ++ out /\ out <> "".
Proof.
  destruct (join_shape (public_dir env)) as (y & _ & Hy).
  exists (y ++ "guides"). split; [apply Hy|].
  destruct y; discriminate.
Qed.

Lemma target_file_not_list_file file : target_file env file <> list_file env.
Proof.
  rewrite target_file_eq, list_file_eq. intros E.
  apply (inj (String.app (target_dir env))) in E. injection E as E.
  apply (f_equal last_char) in E. unfold pdf_filename in E.
  rewrite (last_char_app (name_without_ext file) "." "pdf") in E.
  discriminate E.
Qed.

Lemma source_file_not_target_file f g : source_file env f <> target_file env g.
Proof.
  rewrite source_file_eq, target_file_eq.
  destruct target_dir_under_public as (out & -> & _).
  rewrite app_assoc_str. apply under_source_not_output.
Qed.

Lemma source_file_not_list_file f : source_file env f <> list_file env.
Proof.
  rewrite source_file_eq, list_file_eq.
  destruct target_dir_under_public as (out & -> & _).
  rewrite app_assoc_str. apply under_source_not_output.
Qed.

Lemma source_file_not_public_dir f : source_file env f <> public_dir env.
Proof.
  rewrite source_file_eq. intros E.
  apply (under_source_not_output (String sep f) ""). rewrite E.
  clear. induction (public_dir env) as [|c s IH]; [reflexivity|].
  rewrite app_cons_str. now f_equal.
Qed.

Lemma source_file_not_target_dir f : source_file env f <> target_dir env.
Proof.
  rewrite source_file_eq.
  destruct target_dir_under_public as (out & -> & _).
  apply under_source_not_output.
Qed.

Lemma source_file_not_source_dir f : source_file env f <> source_dir env.
Proof. rewrite source_file_eq. apply string_app_neq. discriminate. Qed.

Lemma target_file_not_target_dir f : target_file env f <> target_dir env.
Proof. rewrite target_file_eq. apply string_app_neq. discriminate. Qed.

Lemma target_file_not_public_dir f : target_file env f <> public_dir env.
Proof.
  rewrite target_file_eq.
  destruct target_dir_under_public as (out & -> & Hout).
  rewrite app_assoc_str. apply string_app_neq. destruct out; [contradiction|discriminate].
Qed.

End Paths.

Section MoreRunFacts.
Variable env : Env.

Lemma convert_fs_other i o w p :
  p <> o ->
  fs (snd (convert_ppt_to_pdf env i o w)) !! p = fs w !! p.
Proof.
  intros Hp. rewrite convert_ppt_to_pdf_eq. destruct (fs w !! i); [|reflexivity].
  rewrite converted_fs. destruct (conversion_error _); [reflexivity|].
  destruct (on_save _); [reflexivity|]. now rewrite lookup_insert_ne.
Qed.

Lemma process_file_fs_other file gl w p :
  p <> target_file env file ->
  fs (snd (process_file env file gl w)) !! p = fs w !! p.
Proof.
  intros Hp.
  assert (C : fs (snd (convert_and_record env file gl w)) !! p = fs w !! p).
  { rewrite convert_and_record_eq.
    pose proof (convert_fs_other (source_file env file) (target_file env file)
                  w p Hp) as H.
    destruct (convert_ppt_to_pdf _ _ _ _) as [[[|]| |] w']; exact H. }
  rewrite process_file_eq.
  destruct (fs w !! target_file env file); [|exact C].
  destruct (fs w !! source_file env file); [|reflexivity].
  destruct (_ >? _)%Z; [reflexivity|exact C].
Qed.

Lemma for_each_fs_other files gl w p :
  (forall f, In f files -> p <> target_file env f) ->
  fs (snd (for_each env files gl w)) !! p = fs w !! p.
Proof.
  revert gl w. induction files as [|f files IH]; intros gl w Hp; [reflexivity|].
  rewrite for_each_cons.
  pose proof (process_file_fs_other f gl w p (Hp f (or_introl eq_refl))) as H.
  destruct (process_file env f gl w) as [[gl1| |] w1]; simpl in H;
    [|exact H|exact H].
  rewrite IH; [exact H|]. intros g Hg. apply Hp. now right.
Qed.

Lemma mkdir_fs_other d w p :
  p <> d -> fs (snd (mkdir env d w)) !! p = fs w !! p.
Proof.
  intros Hp. rewrite mkdir_eq. simpl. destruct (fs w !! d); [reflexivity|].
  simpl. now rewrite lookup_insert_ne.
Qed.

Lemma after_mkdirs_fs_other w p :
  p <> public_dir env -> p <> target_dir env ->
  fs (after_mkdirs env w) !! p = fs w !! p.
Proof.
  intros H1 H2. unfold after_mkdirs. now rewrite !mkdir_fs_other.
Qed.



(** The file system after the main block, away from what it writes. *)
Lemma main_fs_other w p :
  p <> source_dir env -> p <> public_dir env -> p <> target_dir env ->
  p <> list_file env ->
  (forall f, In f (candidates w) -> p <> target_file env f) ->
  fs (snd (main env w)) !! p = fs w !! p.
Proof.
  intros H1 H2 H3 H4 H5. rewrite main_eq.
  destruct (fs w !! source_dir env).
  - destruct (candidates w) as [|f l] eqn:Hc.
    + simpl. now apply after_mkdirs_fs_other.
    + pose proof (for_each_fs_other (f :: l) []
                    (add_stdout (found_line w) (after_mkdirs env w)) p H5) as H.
      destruct (for_each env (f :: l) [] _) as [[gl| |] w1]; simpl in H.
      * rewrite write_manifest_eq. simpl. rewrite lookup_insert_ne by congruence.
        rewrite H. now apply after_mkdirs_fs_other.
      * simpl. rewrite H. now apply after_mkdirs_fs_other.
      * simpl. rewrite H. now apply after_mkdirs_fs_other.
  - simpl. now rewrite lookup_insert_ne by congruence.
Qed.

Lemma convert_com_block i o w :
  exists blocks,
    com_log (snd (convert_ppt_to_pdf env i o w)) = (com_log w ++ concat blocks)%list
    /\ Forall is_block blocks
    /\ (com_instances (snd (convert_ppt_to_pdf env i o w))
        = com_instances w + length blocks)%nat
    /\ (length blocks <= 1)%nat.
Proof.
  rewrite convert_ppt_to_pdf_eq. destruct (fs w !! i).
  - exists [conversion_calls (com env (com_instances w)) i o].
    rewrite converted_com_log, converted_instances. simpl.
    rewrite app_nil_r. repeat split; [|lia|lia].
    constructor; [|constructor]. now exists (com env (com_instances w)), i, o.
  - exists []. simpl. rewrite app_nil_r. repeat split; [constructor|lia|lia].
Qed.

Lemma process_file_com_block file gl w :
  exists blocks,
    com_log (snd (process_file env file gl w)) = (com_log w ++ concat blocks)%list
    /\ Forall is_block blocks
    /\ (com_instances (snd (process_file env file gl w))
        = com_instances w + length blocks)%nat
    /\ (length blocks <= 1)%nat.
Proof.
  assert (N : exists blocks : list (list ComCall),
            com_log w = (com_log w ++ concat blocks)%list
            /\ Forall is_block blocks
            /\ (com_instances w = com_instances w + length blocks)%nat
            /\ (length blocks <= 1)%nat).
  { exists []. simpl. rewrite app_nil_r. repeat split; [constructor|lia|lia]. }
  assert (C : exists blocks,
            com_log (snd (convert_and_record env file gl w))
            = (com_log w ++ concat blocks)%list
            /\ Forall is_block blocks
            /\ (com_instances (snd (convert_and_record env file gl w))
                = com_instances w + length blocks)%nat
            /\ (length blocks <= 1)%nat).
  { rewrite convert_and_record_eq.
    pose proof (convert_com_block (source_file env file) (target_file env file) w)
      as H.
    destruct (convert_ppt_to_pdf _ _ _ _) as [[[|]| |] w']; exact H. }
  rewrite process_file_eq.
  destruct (fs w !! target_file env file); [|exact C].
  destruct (fs w !! source_file env file); [|exact N].
  destruct (_ >? _)%Z; [exact N|exact C].
Qed.

Lemma for_each_com_blocks files gl w :
  exists blocks,
    com_log (snd (for_each env files gl w)) = (com_log w ++ concat blocks)%list
    /\ Forall is_block blocks
    /\ (com_instances (snd (for_each env files gl w))
        = com_instances w + length blocks)%nat
    /\ (length blocks <= length files)%nat.
Proof.
  revert gl w. induction files as [|f files IH]; intros gl w.
  - exists []. simpl. rewrite app_nil_r. repeat split; [constructor|lia|lia].
  - rewrite for_each_cons.
    destruct (process_file_com_block f gl w) as (b1 & L1 & F1 & I1 & N1).
    destruct (process_file env f gl w) as [[gl1| |] w1]; simpl in L1, I1.
    + destruct (IH gl1 w1) as (b2 & L2 & F2 & I2 & N2).
      exists (b1 ++ b2)%list. rewrite L2, I2, L1, I1, concat_app, length_app.
      rewrite <- app_assoc. repeat split; [now apply Forall_app|lia|simpl; lia].
    + exists b1. simpl. repeat split; auto. lia.
    + exists b1. simpl. repeat split; auto. lia.
Qed.

End MoreRunFacts.

Section OutcomeFacts.
Variable env : Env.

Lemma target_current_same_fs file w w' :
  fs w' !! target_file env file = fs w !! target_file env file ->
  fs w' !! source_file env file = fs w !! source_file env file ->
  target_current env file w' = target_current env file w.
Proof. intros H1 H2. unfold target_current. now rewrite H1, H2. Qed.

Lemma after_mkdirs_target_current file w :
  target_current env file (after_mkdirs env w) = target_current env file w.
Proof.
  apply target_current_same_fs; apply after_mkdirs_fs_other;
    auto using target_file_not_public_dir, target_file_not_target_dir,
      source_file_not_public_dir, source_file_not_target_dir.
Qed.

(** A loop in which no conversion can succeed and no target is current. *)
Lemma for_each_all_fail files gl w :
  (forall n, is_Some (conversion_error (com env n))) ->
  (forall f, In f files ->
     is_Some (fs w !! source_file env f) /\ target_current env f w = false) ->
  exists w',
    for_each env files gl w = (Ok gl, w')
    /\ fs w' = fs w /\ written w' = written w
    /\ com_instances w' = (com_instances w + length files)%nat.
Proof.
  intros Herr. revert w. induction files as [|f files IH]; intros w H.
  - exists w. simpl. repeat split. lia.
  - destruct (H f (or_introl eq_refl)) as [Hs Hc].
    destruct (Herr (com_instances w)) as [msg Hmsg].
    rewrite for_each_cons, (process_file_failed env f gl w msg Hs Hc Hmsg).
    set (w1 := snd (converted env (source_file env f) (target_file env f) w)).
    assert (F1 : fs w1 = fs w).
    { subst w1. now rewrite converted_fs, Hmsg. }
    destruct (IH w1) as (w' & E & F & W & I).
    { intros g Hg. destruct (H g (or_intror Hg)) as [Gs Gc].
      rewrite F1. split; [exact Gs|].
      rewrite <- Gc. apply target_current_same_fs; now rewrite F1. }
    exists w'. split; [exact E|]. subst w1.
    rewrite F, F1, W, I, converted_written, converted_instances.
    repeat split. simpl. lia.
Qed.


End OutcomeFacts.

Lemma plain_name_prefix (a b : string) :
  plain_name (a ++ b) = true -> plain_name a = true.
Proof.
  unfold plain_name. rewrite !has_char_app, !andb_true_iff, !negb_true_iff,
    !orb_false_iff.
  intros ((H1 & H2) & H3). tauto.
Qed.

Lemma pdf_filename_plain (file : string) :
  plain_name file = true -> plain_name (pdf_filename file) = true.
Proof.
  intros H. unfold pdf_filename. apply plain_name_app; [|reflexivity].
  destruct (splitext_root_and_ext file) as [E _].
  unfold name_without_ext. rewrite <- E in H.
  now apply plain_name_prefix in H.
Qed.

(** * Further properties of the script *)

(** X1: a directory entry is a candidate exactly when it ends with
    [.pptx] or [.ppt] written in any letter case; nothing else about the
    name matters. *)
Theorem is_ppt_iff_accepted_suffix (f : string) :
  is_ppt f = true <-> exists stem ext, f = stem ++ ext /\ accepted_ext ext.
Proof.
  split; [apply is_ppt_split|].
  intros (stem & ext & -> & He). unfold is_ppt. rewrite lower_app.
  apply orb_true_iff. destruct He as [-> | ->]; [left|right];
    apply endswith_app.
Qed.

(** X2: the title computed for a file is a prefix of its name, and what is
    cut off is either nothing or one extension: a dot followed by
    characters that are neither dots nor separators. *)
Theorem title_is_name_minus_extension (file : string) :
  exists ext,
    file = name_without_ext file ++ ext
    /\ (ext = ""
        \/ exists e, ext = String extsep e /\ has_char extsep e = false
                     /\ has_char sep e = false /\ has_char altsep e = false).
Proof.
  exists (snd (splitext file)). unfold name_without_ext.
  destruct (splitext_root_and_ext file) as [H1 H2]. split; [now symmetry|exact H2].
Qed.

(** X3: the paths the script writes never coincide: the PDF of a file is
    never the manifest, never a source file and never one of the output
    directories, and no source file is the manifest. *)
Theorem output_paths_are_distinct env f g :
  target_file env f <> list_file env
  /\ target_file env f <> source_file env g
  /\ target_file env f <> target_dir env
  /\ target_file env f <> public_dir env
  /\ source_file env g <> list_file env
  /\ source_file env g <> source_dir env.
Proof.
  repeat split.
  - apply target_file_not_list_file.
  - intros E. now apply (source_file_not_target_file env g f).
  - apply target_file_not_target_dir.
  - apply target_file_not_public_dir.
  - apply source_file_not_list_file.
  - apply source_file_not_source_dir.
Qed.

(** X5: the COM calls of a run are a sequence of complete conversions, one
    after the other: each is [CreateObject] alone, or
    [CreateObject; Open; Quit], or [CreateObject; Open; SaveAs; Close; Quit].
    So no instance is started before the previous one was asked to quit,
    there are as many conversions as instances started, and at most one per
    candidate. *)
Theorem com_log_is_a_sequence_of_conversions env w :
  exists blocks,
    com_log (snd (main env w)) = (com_log w ++ concat blocks)%list
    /\ Forall is_block blocks
    /\ com_instances (snd (main env w))
       = (com_instances w + length blocks)%nat
    /\ (length blocks <= length (candidates w))%nat.
Proof.
  assert (N : forall w0, com_log w0 = com_log w ->
              com_instances w0 = com_instances w ->
              exists blocks : list (list ComCall),
                com_log w0 = (com_log w ++ concat blocks)%list
                /\ Forall is_block blocks
                /\ com_instances w0 = (com_instances w + length blocks)%nat
                /\ (length blocks <= length (candidates w))%nat).
  { intros w0 H1 H2. exists []. simpl. rewrite app_nil_r.
    repeat split; [exact H1|constructor|lia|lia]. }
  destruct (after_mkdirs_frame env w) as (_ & _ & M1 & M2 & _).
  simpl in M1, M2.
  rewrite main_eq. destruct (fs w !! source_dir env).
  - destruct (candidates w) as [|f l] eqn:Hc.
    + apply N; simpl; assumption.
    + set (w0 := add_stdout (found_line w) (after_mkdirs env w)).
      assert (L0 : com_log w0 = com_log w) by exact M1.
      assert (I0 : com_instances w0 = com_instances w) by exact M2.
      destruct (for_each_com_blocks env (f :: l) [] w0)
        as (blocks & L & F & I & Hn).
      rewrite L0 in L. rewrite I0 in I. clearbody w0.
      exists blocks.
      destruct (for_each env (f :: l) [] w0) as [[gl| |] w1];
        rewrite ?write_manifest_eq; simpl in *; repeat split; assumption.
  - apply N; reflexivity.
Qed.



(** X8: the staleness check does not guard [os.path.getmtime]: when the
    PDF of a file exists and the file itself is gone, the body of the loop
    raises, the files after it are not processed, and a run that meets this
    at its first candidate ends with status 1 without a COM call and
    without a manifest. *)
Theorem vanished_source_aborts_run env w file rest :
  is_Some (fs w !! target_file env file) ->
  fs w !! source_file env file = None ->
  (forall gl, exists e, for_each env (file :: rest) gl w = (Raise e, w))
  /\ (is_Some (fs w !! source_dir env) -> candidates w = file :: rest ->
      (exists e, fst (main env w) = Raise e)
      /\ exit_status (fst (main env w)) = 1%Z
      /\ com_log (snd (main env w)) = com_log w
      /\ written (snd (main env w)) = written w).
Proof.
  intros [t Ht] Hs. split.
  - intros gl. eexists. rewrite for_each_cons, process_file_eq, Ht, Hs.
    reflexivity.
  - intros [d Hd] Hc. rewrite main_eq, Hd, Hc, for_each_cons, process_file_eq.
    simpl fs.
    rewrite !after_mkdirs_fs_other
      by auto using target_file_not_public_dir, target_file_not_target_dir,
           source_file_not_public_dir, source_file_not_target_dir.
    rewrite Ht, Hs. simpl.
    destruct (after_mkdirs_frame env w) as (_ & _ & F3 & _ & F5).
    repeat split; eauto.
Qed.

Lemma vanished_source_aborts_run_witness :
  exit_status (fst (main Demo.env_ok Demo.w_dangling)) = 1%Z.
Proof.
  refine (proj1 (proj2 (proj2 (vanished_source_aborts_run Demo.env_ok
            Demo.w_dangling "Gone.pptx" [] _ _) _ _))).
  - vm_compute. eauto.
  - vm_compute. reflexivity.
  - vm_compute. eauto.
  - reflexivity.
Defined.







(** X12: the body of the loop on a file that is on disk, whose PDF is not
    current and whose conversion meets no error: it prints the progress
    line and the success line with the two base names, makes the five COM
    calls with the export to the target path in format 32, leaves the PDF
    with the time stamp of the export, and appends the entry. *)
Theorem converted_file_is_recorded env file gl w t :
  plain_name file = true ->
  is_Some (fs w !! source_file env file) ->
  target_current env file w = false ->
  conversion_error (com env (com_instances w)) = None ->
  on_save (com env (com_instances w)) = inr t ->
  exists w',
    process_file env file gl w = (Ok (gl ++ [guide_entry file])%list, w')
    /\ stdout w'
       = (stdout w ++ [("Converting " ++ file ++ "...")%string;
                       ("  -> Success: " ++ pdf_filename file)%string])%list
    /\ com_log w'
       = (com_log w ++
          [CreateObject "Powerpoint.Application";
           PresentationsOpen (source_file env file);
           SaveAs (target_file env file) 32; Close; Quit])%list
    /\ fs w' = <[target_file env file := t]> (fs w).
Proof.
  intros Hplain [s Hs] Hcur Herr Hsave.
  exists (snd (converted env (source_file env file) (target_file env file) w)).
  assert (C : convert_and_record env file gl w
              = (Ok (gl ++ [guide_entry file])%list,
                 snd (converted env (source_file env file)
                        (target_file env file) w))).
  { rewrite convert_and_record_eq, convert_ppt_to_pdf_eq, Hs.
    pose proof (converted_result env (source_file env file)
                  (target_file env file) w) as R. rewrite Herr in R.
    destruct (converted _ _ _ _) as [r w']. simpl in R. now subst r. }
  split.
  - rewrite process_file_eq. unfold target_current in Hcur. rewrite Hs in *.
    destruct (fs w !! target_file env file); [|exact C]. now rewrite Hcur.
  - rewrite converted_stdout, converted_com_log, converted_fs, Herr, Hsave.
    unfold conversion_calls. unfold conversion_error in Herr.
    destruct (on_create _); [discriminate|].
    destruct (on_open _); [discriminate|].
    unfold source_file at 1, target_file at 1.
    rewrite !basename_join by auto using pdf_filename_plain.
    repeat split.
Qed.

Lemma converted_file_is_recorded_witness :
  exists w',
    process_file Demo.env_ok "Intro.pptx" [] Demo.w_intro
    = (Ok [guide_entry "Intro.pptx"], w')
    /\ stdout w' = ["Converting Intro.pptx..."; "  -> Success: Intro.pdf"].
Proof.
  destruct (converted_file_is_recorded Demo.env_ok "Intro.pptx" []
              Demo.w_intro 100%Z) as (w' & H1 & H2 & _).
  - reflexivity.
  - vm_compute. eauto.
  - reflexivity.
  - reflexivity.
  - reflexivity.
  - exists w'. split; [exact H1|exact H2].
Defined.

(** * The script with failures, when nothing fails *)

Lemma bind_ext {S A B} (m m' : M S A) (k k' : A -> M S B) s :
  m s = m' s -> (forall a s', k a s' = k' a s') -> bind m k s = bind m' k' s.
Proof.
  intros Hm Hk. unfold bind. rewrite Hm.
  destruct (m' s) as [[a| |] s']; [apply Hk|reflexivity|reflexivity].
Qed.

Lemma lift_ext {A} (m m' : M World A) s :
  (forall w, m w = m' w) -> lift m s = lift m' s.
Proof. intros H. unfold lift. now rewrite H. Qed.

Lemma try_except_ext {S A} (m m' : M S A) (h h' : string -> M S A) s :
  m s = m' s -> (forall e s', h e s' = h' e s') ->
  try_except m h s = try_except m' h' s.
Proof.
  intros Hm Hh. unfold try_except. rewrite Hm.
  destruct (m' s) as [[a| |] s']; [reflexivity|apply Hh|reflexivity].
Qed.

Lemma try_finally_ext {S A} (m m' : M S A) (c : M S unit) s :
  m s = m' s -> try_finally m c s = try_finally m' c s.
Proof. intros Hm. unfold try_finally. now rewrite Hm. Qed.

Section Printable.
Variable ft : Faults.
Variable env : Env.
Hypothesis printable : can_print ft.

Lemma print_no_faults line w : WithFaults.print ft line w = print line w.
Proof. unfold WithFaults.print. now rewrite printable. Qed.

Lemma convert_no_faults i o w :
  WithFaults.convert_ppt_to_pdf ft env i o w = convert_ppt_to_pdf env i o w.
Proof.
  unfold WithFaults.convert_ppt_to_pdf, convert_ppt_to_pdf.
  apply bind_ext; [reflexivity|]. intros found w1.
  destruct (negb found).
  - apply bind_ext; [apply print_no_faults|reflexivity].
  - apply bind_ext; [apply print_no_faults|]. intros _ w2.
    erewrite try_finally_ext; [reflexivity|].
    apply try_except_ext.
    + unfold WithFaults.convert_try, convert_try.
      repeat (apply bind_ext; [reflexivity|]; intros).
      apply bind_ext; [|reflexivity].
      apply lift_ext, print_no_faults.
    + intros e s. unfold WithFaults.convert_except, convert_except.
      apply bind_ext; [|reflexivity].
      destruct (_ || _).
      * apply bind_ext; [apply lift_ext, print_no_faults|].
        intros. apply lift_ext, print_no_faults.
      * apply lift_ext, print_no_faults.
Qed.

Lemma process_file_no_faults file gl w :
  WithFaults.process_file ft env file gl w = process_file env file gl w.
Proof.
  unfold WithFaults.process_file, process_file.
  apply bind_ext.
  - unfold WithFaults.should_convert, should_convert.
    apply bind_ext; [reflexivity|]. intros found w1. destruct found; [|reflexivity].
    apply bind_ext; [reflexivity|]. intros s w2.
    apply bind_ext; [reflexivity|]. intros t w3.
    destruct (_ >? _)%Z; [|reflexivity].
    apply bind_ext; [apply print_no_faults|reflexivity].
  - intros convert w1. apply bind_ext; [|reflexivity].
    destruct convert; [apply convert_no_faults|reflexivity].
Qed.

Lemma for_each_no_faults files gl w :
  WithFaults.for_each ft env files gl w = for_each env files gl w.
Proof.
  revert gl w. induction files as [|f files IH]; intros gl w; [reflexivity|].
  simpl. apply bind_ext; [apply process_file_no_faults|]. intros. apply IH.
Qed.
End Printable.

Section NoFaults.
Variable ft : Faults.
Variable env : Env.
Hypothesis quiet : no_faults ft.

Lemma mkdir_no_faults p w : WithFaults.mkdir ft env p w = mkdir env p w.
Proof.
  unfold WithFaults.mkdir. destruct quiet as (_ & H & _). now rewrite H.
Qed.

Lemma listdir_no_faults w : WithFaults.listdir ft w = listdir w.
Proof.
  unfold WithFaults.listdir. destruct quiet as (_ & _ & H & _). now rewrite H.
Qed.

Lemma write_text_no_faults path text w :
  WithFaults.write_text ft env path text w = write_text env path text w.
Proof.
  unfold WithFaults.write_text. destruct quiet as (_ & _ & _ & H).
  now rewrite H.
Qed.

Lemma write_manifest_no_faults gl w :
  WithFaults.write_manifest ft env gl w = write_manifest env gl w.
Proof.
  unfold WithFaults.write_manifest, write_manifest.
  apply bind_ext; [apply write_text_no_faults|]. intros.
  repeat (apply bind_ext; [apply print_no_faults, quiet|]; intros).
  apply print_no_faults, quiet.
Qed.

(** With no failure the two embeddings of the main block agree. *)
Lemma main_no_faults w : WithFaults.main ft env w = main env w.
Proof.
  unfold WithFaults.main, main.
  apply bind_ext; [reflexivity|]. intros have w1. destruct (negb have).
  - apply bind_ext; [apply mkdir_no_faults|]. intros.
    repeat (apply bind_ext; [apply print_no_faults, quiet|]; intros).
    reflexivity.
  - apply bind_ext; [apply mkdir_no_faults|]. intros.
    apply bind_ext; [apply mkdir_no_faults|]. intros.
    apply bind_ext; [apply listdir_no_faults|]. intros names w2.
    destruct (List.filter is_ppt names) as [|f l].
    + repeat (apply bind_ext; [apply print_no_faults, quiet|]; intros).
      reflexivity.
    + apply bind_ext; [apply print_no_faults, quiet|]. intros.
      apply bind_ext; [apply for_each_no_faults, quiet|]. intros.
      apply write_manifest_no_faults.
Qed.

End NoFaults.

(** * Facts about a first run and the run after it *)

Section FirstRun.
Variable env : Env.




End FirstRun.






(** C8, as stated, fails: [.pptx] and [..PPT] are candidates, and for
    [os.path.splitext] a name made of dots before its suffix has no
    extension, so the title is the whole name and the PDF is named after
    it. *)
Lemma dotted_names_keep_their_suffix :
  (is_ppt ".pptx" = true
   /\ guide_entry ".pptx" = {| title := ".pptx"; filename := ".pptx.pdf" |}
   /\ basename (target_file Demo.env_ok ".pptx") = ".pptx.pdf")
  /\ (is_ppt "..PPT" = true
      /\ guide_entry "..PPT" = {| title := "..PPT"; filename := "..PPT.pdf" |}).
Proof. vm_compute. repeat split. Qed.

(** C8, amended: every candidate directory entry is [stem ++ ext] with
    [ext] an accepted suffix.  Its base name is [stem] when [stem] has a
    character other than a dot, and the whole name otherwise.  The target
    is that base name followed by [.pdf] inside the target directory, the
    entry is exactly the title equal to the base name with the file name
    equal to the PDF name, it is the only entry the body of the loop can
    add for the file, and the export of its conversion goes to that
    target. *)
Theorem candidate_target_and_entry env file :
  is_ppt file = true -> plain_name file = true ->
  exists stem ext base,
    file = stem ++ ext /\ accepted_ext ext
    /\ base = (if has_non_dot stem then stem else file)
    /\ name_without_ext file = base
    /\ target_file env file = join (target_dir env) (base ++ ".pdf")
    /\ basename (target_file env file) = base ++ ".pdf"
    /\ guide_entry file = {| title := base; filename := base ++ ".pdf" |}
    /\ (forall gl w gl',
          fst (process_file env file gl w) = Ok gl' ->
          gl' = gl
          \/ gl' = (gl ++ [{| title := base; filename := base ++ ".pdf" |}])%list)
    /\ (forall gl w,
          is_Some (fs w !! source_file env file) ->
          target_current env file w = false ->
          com_log (snd (process_file env file gl w))
          = (com_log w ++
             conversion_calls (com env (com_instances w))
               (source_file env file)
               (join (target_dir env) (base ++ ".pdf")))%list).
Proof.
  intros Hppt Hplain.
  destruct (is_ppt_split file Hppt) as (stem & ext & -> & Hext).
  pose proof (plain_name_prefix _ _ Hplain) as Hstem.
  assert (En : name_without_ext (stem ++ ext)
               = if has_non_dot stem then stem else stem ++ ext).
  { pose proof Hstem as Hp'. unfold plain_name in Hp'.
    apply andb_true_iff in Hp' as [Hp' _].
    apply andb_true_iff in Hp' as [H1 H2]. apply negb_true_iff in H1, H2.
    now apply name_without_ext_stem. }
  exists stem, ext, (if has_non_dot stem then stem else stem ++ ext).
  assert (Eg : guide_entry (stem ++ ext)
               = {| title := if has_non_dot stem then stem else stem ++ ext;
                    filename := (if has_non_dot stem then stem
                                 else stem ++ ext) ++ ".pdf" |}).
  { unfold guide_entry, pdf_filename. now rewrite En. }
  assert (Et : target_file env (stem ++ ext)
               = join (target_dir env)
                   ((if has_non_dot stem then stem else stem ++ ext) ++ ".pdf")).
  { unfold target_file, pdf_filename. now rewrite En. }
  split; [reflexivity|]. split; [exact Hext|]. split; [reflexivity|].
  split; [exact En|]. split; [exact Et|]. split; [|split; [exact Eg|split]].
  - rewrite Et. apply basename_join. apply plain_name_app; [|reflexivity].
    destruct (has_non_dot stem); assumption.
  - intros gl w gl'. rewrite <- Eg. rewrite process_file_eq.
    assert (C : fst (convert_and_record env (stem ++ ext) gl w) = Ok gl' ->
                gl' = gl \/ gl' = (gl ++ [guide_entry (stem ++ ext)])%list).
    { rewrite convert_and_record_eq.
      destruct (convert_ppt_to_pdf _ _ _ _) as [[[|]| |] w']; simpl;
        intros [= <-]; auto. }
    destruct (fs w !! target_file env (stem ++ ext)); [|exact C].
    destruct (fs w !! source_file env (stem ++ ext)); [|discriminate].
    destruct (_ >? _)%Z; [|exact C]. simpl. intros [= <-]. auto.
  - intros gl w [s Hs] Hcur. rewrite <- Et. rewrite process_file_eq.
    assert (C : com_log (snd (convert_and_record env (stem ++ ext) gl w))
                = (com_log w ++
                   conversion_calls (com env (com_instances w))
                     (source_file env (stem ++ ext))
                     (target_file env (stem ++ ext)))%list).
    { rewrite convert_and_record_eq, convert_ppt_to_pdf_eq, Hs.
      pose proof (converted_com_log env (source_file env (stem ++ ext))
                    (target_file env (stem ++ ext)) w) as H.
      destruct (converted _ _ _ _) as [[[|]| |] w']; exact H. }
    unfold target_current in Hcur. rewrite Hs in *.
    destruct (fs w !! target_file env (stem ++ ext)); [|exact C].
    rewrite Hcur. exact C.
Qed.

Lemma candidate_target_and_entry_witness :
  exists stem ext base,
    "Quarterly.Report.PPTX" = stem ++ ext /\ accepted_ext ext
    /\ base = (if has_non_dot stem then stem else "Quarterly.Report.PPTX")
    /\ name_without_ext "Quarterly.Report.PPTX" = base.
Proof.
  destruct (candidate_target_and_entry Demo.env_ok "Quarterly.Report.PPTX")
    as (stem & ext & base & H1 & H2 & H3 & H4 & _).
  - reflexivity.
  - reflexivity.
  - exists stem, ext, base. repeat split; assumption.
Defined.

(** X4: the script never creates, removes or re-stamps a source file:
    every path [guide_source\<name>] has after a run the existence and the
    modification time it had before, the external application writing
    nothing but the PDF it is asked to export. *)
Theorem run_leaves_sources_alone env w f :
  fs (snd (main env w)) !! source_file env f = fs w !! source_file env f.
Proof.
  apply main_fs_other.
  - apply source_file_not_source_dir.
  - apply source_file_not_public_dir.
  - apply source_file_not_target_dir.
  - apply source_file_not_list_file.
  - intros g _. apply source_file_not_target_file.
Qed.

(** * Error containment *)

Lemma no_faults_none : no_faults DemoFaults.none.
Proof. repeat split. Qed.

(** A run in which no conversion can succeed and no target is current. *)
Lemma main_all_fail env w :
  is_Some (fs w !! source_dir env) -> candidates w <> [] ->
  listing_ok env w ->
  (forall f, In f (candidates w) -> target_current env f w = false) ->
  (forall n, is_Some (conversion_error (com env n))) ->
  written (snd (main env w)) = (written w ++ [(list_file env, "[]")])%list.
Proof.
  intros [d Hd] Hne Hok Hcur Herr.
  destruct (for_each_all_fail env (candidates w) []
              (add_stdout (found_line w) (after_mkdirs env w)) Herr)
    as (w' & E & _ & W & _).
  { intros f Hf. simpl. split.
    - apply (fs_keeps_grows w); [apply after_mkdirs_keeps|now apply Hok].
    - rewrite <- (Hcur f Hf). apply after_mkdirs_target_current. }
  destruct (after_mkdirs_frame env w) as (_ & _ & _ & _ & F5).
  simpl in F5, W.
  rewrite main_eq, Hd. destruct (candidates w) as [|c l] eqn:Hc;
    [contradiction|].
  rewrite E, write_manifest_eq. simpl. now rewrite W, F5.
Qed.

(** C3, as stated, fails, in three ways.  With [Broken.pptx] and
    [Gone.pptx] listed, [Gone.pdf] present and [Gone.pptx] gone, the error
    of the first conversion is caught and logged, then [os.path.getmtime]
    raises on the second file and the run ends without a manifest.  When
    standard output cannot encode the text of the error, the [print] of the
    handler raises in its turn: the conversion does not return, and the run
    ends without a manifest.  And when, after a caught error, the writing
    of the manifest fails, the run ends with a truncated manifest. *)
Lemma later_failure_stops_the_run :
  (let r := WithFaults.main DemoFaults.none Demo.env_broken
              Demo.w_broken_then_gone in
   fst r = Raise (not_found (source_file Demo.env_broken "Gone.pptx"))
   /\ stdout (snd r)
      = ["Found 2 PowerPoint files."; "Converting Broken.pptx...";
         "Error during conversion of Broken.pptx: PowerPoint could not open the file."]
   /\ written (snd r) = [])
  /\ (let c := WithFaults.convert_ppt_to_pdf DemoFaults.mute_errors
                 Demo.env_broken (source_file Demo.env_broken "Broken.pptx")
                 (target_file Demo.env_broken "Broken.pptx") Demo.w_broken in
      let r := WithFaults.main DemoFaults.mute_errors Demo.env_broken
                 Demo.w_broken in
      fst c = Raise "'charmap' codec can't encode characters"
      /\ stdout (snd c) = ["Converting Broken.pptx..."]
      /\ fst r = Raise "'charmap' codec can't encode characters"
      /\ written (snd r) = [])
  /\ (let r := WithFaults.main DemoFaults.short_write Demo.env_first_fails
                 Demo.w_twins in
      fst r = Raise "'utf-8' codec can't encode character"
      /\ written (snd r)
         = [(list_file Demo.env_first_fails,
             substring 0 4 (Json.dumps [guide_entry "Intro.ppt"]))]).
Proof. vm_compute. repeat split. Qed.

(** C3, amended: take a file whose conversion raises in a COM call, on a
    standard output that can print every line and with a manifest that can
    be written.  The error is caught inside the conversion, which returns
    [False]: the body of the loop adds no entry, leaves the file system as
    it was, and the loop goes on with the next file.  The log gets the line
    [Converting <file>...] and then, for an error recognised as PowerPoint
    not being installed, the two fixed lines of the notice, and otherwise
    the line [Error during conversion of <file>: <error>].  When every
    file that remains is on disk, the loop completes and the manifest is
    written. *)
Theorem com_error_is_caught_and_loop_goes_on ft env file rest gl w msg :
  can_print ft -> can_write ft ->
  plain_name file = true ->
  is_Some (fs w !! source_file env file) ->
  target_current env file w = false ->
  conversion_error (com env (com_instances w)) = Some msg ->
  (forall f, In f rest -> is_Some (fs w !! source_file env f)) ->
  exists w',
    WithFaults.process_file ft env file gl w = (Ok gl, w')
    /\ stdout w'
       = (stdout w ++
          ("Converting " ++ file ++ "...")%string ::
          (if is_not_installed msg then [not_installed_1; not_installed_2]
           else [("Error during conversion of " ++ file ++ ": " ++ msg)%string]))%list
    /\ fs w' = fs w
    /\ WithFaults.for_each ft env (file :: rest) gl w
       = WithFaults.for_each ft env rest gl w'
    /\ exists gl' w'',
         WithFaults.for_each ft env rest gl w' = (Ok gl', w'')
         /\ fst (WithFaults.write_manifest ft env gl' w'') = Ok tt
         /\ written (snd (WithFaults.write_manifest ft env gl' w''))
            = (written w ++ [(list_file env, Json.dumps gl')])%list.
Proof.
  intros Hp Hw Hplain Hsrc Hcur Herr Hrest.
  destruct (failed_conversion_goes_on env file rest gl w msg
              Hplain Hsrc Hcur Herr Hrest)
    as (w' & P & O & F & L & gl' & w'' & L' & M1 & M2).
  exists w'. rewrite !for_each_no_faults, process_file_no_faults by assumption.
  repeat split; try assumption.
  exists gl', w''. split; [exact L'|].
  assert (E : WithFaults.write_manifest ft env gl' w''
              = write_manifest env gl' w'').
  { unfold WithFaults.write_manifest, write_manifest.
    apply bind_ext.
    - unfold WithFaults.write_text. now rewrite Hw.
    - intros.
      repeat (apply bind_ext; [now apply print_no_faults|]; intros).
      now apply print_no_faults. }
  rewrite E. split; assumption.
Qed.

Lemma com_error_is_caught_and_loop_goes_on_witness :
  exists w',
    WithFaults.process_file DemoFaults.none Demo.env_broken "Broken.pptx" []
      Demo.w_broken = (Ok [], w')
    /\ stdout w'
       = ["Converting Broken.pptx...";
          "Error during conversion of Broken.pptx: PowerPoint could not open the file."].
Proof.
  destruct (com_error_is_caught_and_loop_goes_on DemoFaults.none
              Demo.env_broken "Broken.pptx" [] [] Demo.w_broken
              "PowerPoint could not open the file.")
    as (w' & H1 & H2 & _).
  - intros line. reflexivity.
  - intros p text. reflexivity.
  - reflexivity.
  - vm_compute. eauto.
  - reflexivity.
  - reflexivity.
  - intros f [].
  - exists w'. split; [exact H1|exact H2].
Defined.

(** C4, as stated, fails.  A run that finds no source directory, or no
    presentation in it, leaves through [sys.exit(0)] and writes no
    manifest.  And the operations the script runs outside any handler end
    the run with a traceback when they fail: the [print] of the progress
    line on a name that standard output cannot encode, [os.listdir],
    [os.makedirs], [os.path.getmtime] on a source that is gone, and the
    writing of the manifest, which then stays truncated. *)
Lemma run_may_end_without_manifest :
  (fst (WithFaults.main DemoFaults.none Demo.env_ok Demo.w_bare) = Exit 0
   /\ written (snd (WithFaults.main DemoFaults.none Demo.env_ok Demo.w_bare))
      = [])
  /\ (fst (WithFaults.main DemoFaults.none Demo.env_ok Demo.w_no_ppt) = Exit 0
      /\ written (snd (WithFaults.main DemoFaults.none Demo.env_ok
                         Demo.w_no_ppt)) = [])
  /\ (let r := WithFaults.main DemoFaults.mute_intro Demo.env_ok Demo.w_intro in
      exit_status (fst r) = 1%Z /\ written (snd r) = []
      /\ com_log (snd r) = [])
  /\ (let r := WithFaults.main DemoFaults.unlistable Demo.env_ok Demo.w_intro in
      exit_status (fst r) = 1%Z /\ written (snd r) = [])
  /\ (let r := WithFaults.main DemoFaults.read_only Demo.env_ok Demo.w_intro in
      exit_status (fst r) = 1%Z /\ written (snd r) = [])
  /\ (let r := WithFaults.main DemoFaults.none Demo.env_ok Demo.w_dangling in
      exit_status (fst r) = 1%Z /\ written (snd r) = [])
  /\ (let r := WithFaults.main DemoFaults.short_write Demo.env_ok Demo.w_intro in
      exit_status (fst r) = 1%Z
      /\ written (snd r)
         = [(list_file Demo.env_ok,
             substring 0 4 (Json.dumps [guide_entry "Intro.pptx"]))]).
Proof. vm_compute. repeat split. Qed.

(** C4, amended: take a run in which none of the operations the script
    runs outside a handler fails ([print], [os.makedirs], [os.listdir], the
    writing of the manifest) and every candidate listed is on disk.
    Whatever the COM calls raise, no exception leaves the main block and
    the exit status is 0.  If the source directory is missing or holds no
    presentation, the run leaves through [sys.exit(0)] and writes nothing.
    Otherwise it runs to its end and writes the manifest once: an array of
    the entries of some of the candidates, in their order, which is the
    empty array [[]] when no target is current and every conversion
    fails. *)
Theorem run_ends_cleanly_when_nothing_fails ft env w :
  no_faults ft -> listing_ok env w ->
  exit_status (fst (WithFaults.main ft env w)) = 0%Z
  /\ (fs w !! source_dir env = None \/ candidates w = [] ->
      fst (WithFaults.main ft env w) = Exit 0
      /\ written (snd (WithFaults.main ft env w)) = written w)
  /\ (is_Some (fs w !! source_dir env) -> candidates w <> [] ->
      (exists kept,
         fst (WithFaults.main ft env w) = Ok tt
         /\ written (snd (WithFaults.main ft env w))
            = (written w ++
               [(list_file env, Json.dumps (map guide_entry kept))])%list
         /\ sublist kept (candidates w))
      /\ ((forall f, In f (candidates w) -> target_current env f w = false) ->
          (forall n, is_Some (conversion_error (com env n))) ->
          written (snd (WithFaults.main ft env w))
          = (written w ++ [(list_file env, "[]")])%list)).
Proof.
  intros Hq Hok. rewrite (main_no_faults ft env Hq).
  destruct (main_exits_or_completes env w Hok) as (H1 & H2 & H3).
  split; [exact H1|]. split; [exact H2|].
  intros Hs Hne. split; [now apply H3|].
  intros Hcur Herr. now apply main_all_fail.
Qed.

Lemma run_ends_cleanly_when_nothing_fails_witness :
  fst (WithFaults.main DemoFaults.none Demo.env_broken Demo.w_broken) = Ok tt
  /\ written (snd (WithFaults.main DemoFaults.none Demo.env_broken
                     Demo.w_broken))
     = [(list_file Demo.env_broken, "[]")].
Proof.
  assert (Hok : listing_ok Demo.env_broken Demo.w_broken).
  { intros f [<-|[]]. vm_compute. eauto. }
  assert (Hs : is_Some (fs Demo.w_broken !! source_dir Demo.env_broken)).
  { vm_compute. eauto. }
  assert (Hne : candidates Demo.w_broken <> []) by discriminate.
  destruct (proj2 (proj2 (run_ends_cleanly_when_nothing_fails DemoFaults.none
              Demo.env_broken Demo.w_broken no_faults_none Hok)) Hs Hne)
    as [(kept & H1 & _) H2].
  split; [exact H1|]. apply H2.
  - intros f [<-|[]]. reflexivity.
  - intros n. vm_compute. eauto.
Defined.

(** X6: on a standard output that can print every line, a conversion
    returns a boolean.  It returns [True] exactly when its input exists and
    none of [CreateObject], [Open] and [SaveAs] raises, and the output path
    then exists with the time stamp of the export; when it returns
    [False] the output path is what it was before the call. *)
Theorem convert_outcome_when_printable ft env input_path output_path w :
  can_print ft ->
  match WithFaults.convert_ppt_to_pdf ft env input_path output_path w with
  | (Ok true, w') =>
      is_Some (fs w !! abspath input_path)
      /\ conversion_error (com env (com_instances w)) = None
      /\ exists t, on_save (com env (com_instances w)) = inr t
                   /\ fs w' !! abspath output_path = Some t
  | (Ok false, w') =>
      (fs w !! abspath input_path = None
       \/ is_Some (conversion_error (com env (com_instances w))))
      /\ fs w' !! abspath output_path = fs w !! abspath output_path
  | (Raise _, _) | (Exit _, _) => False
  end.
Proof.
  intros Hp. rewrite (convert_no_faults ft env Hp).
  unfold abspath. rewrite convert_ppt_to_pdf_eq.
  destruct (fs w !! input_path) as [t|] eqn:Hi.
  - pose proof (converted_result env input_path output_path w) as R.
    pose proof (converted_fs env input_path output_path w) as F.
    destruct (converted _ _ _ _) as [r w']. simpl in R, F. subst r.
    destruct (conversion_error _) as [msg|] eqn:E.
    + split; [right; eauto|now rewrite F].
    + split; [eauto|]. split; [reflexivity|].
      unfold conversion_error in E.
      destruct (on_create _); [discriminate|].
      destruct (on_open _); [discriminate|].
      destruct (on_save _) as [|t']; [discriminate|].
      exists t'. split; [reflexivity|]. rewrite F. apply lookup_insert_eq.
  - split; [now left|reflexivity].
Qed.

Lemma convert_outcome_when_printable_witness :
  match WithFaults.convert_ppt_to_pdf DemoFaults.none Demo.env_ok
          (source_file Demo.env_ok "Intro.pptx")
          (target_file Demo.env_ok "Intro.pptx") Demo.w_intro with
  | (Ok true, w') =>
      fs w' !! target_file Demo.env_ok "Intro.pptx" = Some 100%Z
  | _ => False
  end.
Proof.
  pose proof (convert_outcome_when_printable DemoFaults.none Demo.env_ok
                (source_file Demo.env_ok "Intro.pptx")
                (target_file Demo.env_ok "Intro.pptx") Demo.w_intro
                (fun line => eq_refl)) as H.
  destruct (WithFaults.convert_ppt_to_pdf _ _ _ _ _) as [[[|]| |] w'] eqn:E;
    try (vm_compute in E; discriminate E).
  destruct H as (_ & _ & t & Ht & Hfs). vm_compute in Ht.
  injection Ht as <-. exact Hfs.
Defined.
